(** * dspy-story-maker: the prompt-safety filter and the generation pipeline

    A shallow embedding of [src/pipeline/data_structures.py],
    [src/pipeline/validator.py] and [src/pipeline/story_generator.py].

    Python's [str] is modelled by [string]; a character is read as the code
    point of the same number (U+0000 .. U+00FF), and the character classes
    below are Python's on that range. *)

From Stdlib Require Import Bool Arith List ZArith Lia.
From Stdlib Require Import Ascii String DecimalString.
From Stdlib Require DecimalPos DecimalZ.
From Stdlib Require Import PrimFloat.
Import ListNotations.

#[local] Set Warnings "-inexact-float".

Local Open Scope string_scope.
Local Open Scope list_scope.

(** ** Characters *)

Module Char.

Definition ord (c : ascii) : nat := nat_of_ascii c.

Definition between (lo hi n : nat) : bool := Nat.leb lo n && Nat.leb n hi.

(** [str.isspace] for one character: TAB..CR, FS..US, SPACE, NEL, NBSP. *)
Definition isspace (c : ascii) : bool :=
  let n := ord c in
  between 9 13 n || between 28 32 n || Nat.eqb n 133 || Nat.eqb n 160.

(** Characters that [str.lower] changes: A-Z, and the capital letters
    U+00C0 .. U+00DE except the multiplication sign U+00D7. *)
Definition isupper (c : ascii) : bool :=
  let n := ord c in
  between 65 90 n || between 192 214 n || between 216 222 n.

Definition lower (c : ascii) : ascii :=
  if isupper c then ascii_of_nat (ord c + 32) else c.

(** [\w] of the [re] module on [str]: alphanumeric or underscore. *)
Definition isword (c : ascii) : bool :=
  let n := ord c in
  between 48 57 n || between 65 90 n || Nat.eqb n 95 || between 97 122 n
  || Nat.eqb n 170 || between 178 179 n || Nat.eqb n 181 || between 185 186 n
  || between 188 190 n || between 192 214 n || between 216 246 n
  || between 248 255 n.

Definition eqb_case (ignorecase : bool) (p c : ascii) : bool :=
  if ignorecase then Ascii.eqb (lower p) (lower c) else Ascii.eqb p c.

End Char.

(** ** The [str] methods the pipeline calls *)

Module Str.

Definition newline : ascii := ascii_of_nat 10.

Fixpoint lower (s : string) : string :=
  match s with
  | EmptyString => EmptyString
  | String c r => String (Char.lower c) (lower r)
  end.

Definition startswith (s p : string) : bool := prefix p s.

Fixpoint last (s : string) : option ascii :=
  match s with
  | EmptyString => None
  | String c EmptyString => Some c
  | String _ r => last r
  end.

(** [s.endswith(c)] for a one-character suffix. *)
Definition endswith_char (s : string) (c : ascii) : bool :=
  match last s with
  | Some d => Ascii.eqb d c
  | None => false
  end.

Fixpoint lstrip (s : string) : string :=
  match s with
  | EmptyString => EmptyString
  | String c r => if Char.isspace c then lstrip r else s
  end.

Fixpoint rstrip (s : string) : string :=
  match s with
  | EmptyString => EmptyString
  | String c r =>
      match rstrip r with
      | EmptyString => if Char.isspace c then EmptyString else String c EmptyString
      | r' => String c r'
      end
  end.

Definition strip (s : string) : string := rstrip (lstrip s).

(** [s.split(sep)] for a one-character separator: never an empty list. *)
Fixpoint split_on (sep : ascii) (s : string) : list string :=
  match s with
  | EmptyString => [EmptyString]
  | String c r =>
      if Ascii.eqb c sep then EmptyString :: split_on sep r
      else match split_on sep r with
           | p :: ps => String c p :: ps
           | [] => [String c EmptyString]
           end
  end.

(** [s.split()]: the maximal runs of non-whitespace characters. *)
Fixpoint split (s : string) : list string :=
  match s with
  | EmptyString => []
  | String c r =>
      if Char.isspace c then split r
      else match r with
           | EmptyString => [String c EmptyString]
           | String d _ =>
               if Char.isspace d then String c EmptyString :: split r
               else match split r with
                    | p :: ps => String c p :: ps
                    | [] => [String c EmptyString]
                    end
           end
  end.

(** [s[n:]] *)
Fixpoint drop (n : nat) (s : string) : string :=
  match n, s with
  | O, _ => s
  | S _, EmptyString => EmptyString
  | S k, String _ r => drop k r
  end.

(** [s[:n]] *)
Fixpoint take (n : nat) (s : string) : string :=
  match n, s with
  | O, _ => EmptyString
  | S _, EmptyString => EmptyString
  | S k, String c r => String c (take k r)
  end.

(** [sep.join(l)] *)
Fixpoint join (sep : string) (l : list string) : string :=
  match l with
  | [] => EmptyString
  | [x] => x
  | x :: r => x ++ sep ++ join sep r
  end.

Definition nonempty (s : string) : bool :=
  match s with EmptyString => false | _ => true end.

(** [str(n)] for an [int]. *)
Definition of_int (n : Z) : string := NilZero.string_of_int (Z.to_int n).

(** [list(set(l))]: each element once.  Python leaves the order of a set's
    elements open; one order is fixed here, and nothing below depends on
    it. *)
Definition set_list (l : list string) : list string := nodup string_dec l.

End Str.

(** ** The regular expressions of the validator

    Every pattern of the source has the shape [\b(w1|w2|...|wn)\b] with
    non-empty literal words [wi], so a pattern is kept as the list of its
    alternatives, in the order written.  A match consumes at least one
    character, and none starts at the end of the text. *)

Module Re.

Definition pattern := list string.

Definition isword_at (o : option ascii) : bool :=
  match o with
  | Some c => Char.isword c
  | None => false
  end.

(** [\b] between the character before and the character after a position;
    the ends of the text count as non-word. *)
Definition boundary (before after : option ascii) : bool :=
  xorb (isword_at before) (isword_at after).

Definition head (s : string) : option ascii :=
  match s with
  | EmptyString => None
  | String c _ => Some c
  end.

(** The literal [w] at the start of [s]: the text after it. *)
Fixpoint literal (ignorecase : bool) (w s : string) : option string :=
  match w, s with
  | EmptyString, _ => Some s
  | String p w', String c s' =>
      if Char.eqb_case ignorecase p c then literal ignorecase w' s' else None
  | String _ _, EmptyString => None
  end.

(** The alternatives are tried in order; one is taken when the literal is
    there and [\b] holds after it.  The result is the matched text. *)
Fixpoint alternatives (ignorecase : bool) (alts : pattern)
         (before : option ascii) (s : string) : option string :=
  match alts with
  | [] => None
  | w :: alts' =>
      let m := Str.take (String.length w) s in
      match literal ignorecase w s with
      | Some rest =>
          let last := match Str.last m with Some c => Some c | None => before end in
          if boundary last (head rest) then Some m
          else alternatives ignorecase alts' before s
      | None => alternatives ignorecase alts' before s
      end
  end.

(** One attempt of the whole pattern at a position. *)
Definition match_at (ignorecase : bool) (alts : pattern)
           (before : option ascii) (s : string) : option string :=
  if boundary before (head s) then alternatives ignorecase alts before s
  else None.

(** The left-to-right scan of [re.findall] and [re.sub]: [skip] counts the
    characters of the last match still to be passed over. *)
Fixpoint findall_from (ignorecase : bool) (alts : pattern)
         (before : option ascii) (skip : nat) (s : string) : list string :=
  match s with
  | EmptyString => []
  | String c r =>
      match skip with
      | S k => findall_from ignorecase alts (Some c) k r
      | O =>
          match match_at ignorecase alts before s with
          | Some m => m :: findall_from ignorecase alts (Some c) (String.length m - 1) r
          | None => findall_from ignorecase alts (Some c) 0 r
          end
      end
  end.

Fixpoint sub_from (ignorecase : bool) (alts : pattern) (repl : string)
         (before : option ascii) (skip : nat) (s : string) : string :=
  match s with
  | EmptyString => EmptyString
  | String c r =>
      match skip with
      | S k => sub_from ignorecase alts repl (Some c) k r
      | O =>
          match match_at ignorecase alts before s with
          | Some m => repl ++ sub_from ignorecase alts repl (Some c) (String.length m - 1) r
          | None => String c (sub_from ignorecase alts repl (Some c) 0 r)
          end
      end
  end.

(** [re.findall(pattern, s)]: the texts of group 1, left to right. *)
Definition findall (alts : pattern) (s : string) : list string :=
  findall_from false alts None 0 s.

(** [re.sub(pattern, repl, s, flags=re.IGNORECASE)] *)
Definition sub_ignorecase (alts : pattern) (repl s : string) : string :=
  sub_from true alts repl None 0 s.

End Re.

(** ** data_structures.py *)

Module StoryRequest.
Record t := mk {
  prompt : string;
  genre : string;
  age_group : string;
  story_length : string
}.
End StoryRequest.

Module ValidatedPrompt.
Record t := mk {
  original_prompt : string;
  cleaned_prompt : string;
  is_safe : bool;
  removed_content : list string;
  warnings : list string
}.
End ValidatedPrompt.

Module GeneratedStory.
Record t := mk {
  title : string;
  story_text : string;
  genre : string;
  age_group : string;
  word_count : Z;
  estimated_reading_time : string;
  is_safe : bool
}.

(** The method of the dataclass; no caller in the pipeline. *)
Definition get_reading_time (self : t) : string :=
  let minutes := Z.max 1 (word_count self / 200) in
  Str.of_int minutes ++ "-" ++ Str.of_int (minutes + 2) ++ " minutes".
End GeneratedStory.

(** A [dict] with string keys, in insertion order, and [d.get(k, default)]. *)
Fixpoint dict_get {V : Type} (d : list (string * V)) (k : string) (default : V) : V :=
  match d with
  | [] => default
  | (k', v) :: d' => if String.eqb k' k then v else dict_get d' k default
  end.

(** ** validator.py *)

Module PromptValidator.

Definition harmful_patterns : list Re.pattern :=
  [ ["kill"; "death"; "die"; "murder"; "suicide"];
    ["violence"; "fighting"; "war"; "gun"; "weapon"; "blood"; "gore"];
    ["hate"; "racist"; "discrimination"];
    ["scary"; "frightening"; "nightmare"; "terror"; "horror"];
    ["inappropriate"; "adult"; "sexual"] ].

Definition replacements : list (Re.pattern * string) :=
  [ (["scary"; "frightening"; "terror"; "horror"], "mysterious");
    (["fight"; "fighting"], "disagree");
    (["hurt"; "pain"], "uncomfortable");
    (["angry"; "mad"], "upset");
    (["bad"; "evil"], "mischievous") ].

Definition genre_starters : list (string * string) :=
  [ ("adventure", "Once upon a time, in a land of exciting adventures, ");
    ("fantasy", "In a magical world filled with wonder, ");
    ("friendship", "In a warm and friendly place, ");
    ("learning", "One day, a curious child discovered that ");
    ("animals", "In a forest where animals could talk, ");
    ("bedtime", "As the stars began to twinkle in the night sky, ");
    ("funny", "On a silly and wonderful day, ");
    ("mystery", "There was an interesting mystery to solve when ") ].

Definition story_beginnings : list string := ["once"; "there"; "in a"; "one day"].

Definition _enhance_prompt (prompt genre : string) : string :=
  let starter := dict_get genre_starters (Str.lower genre) "Once upon a time, " in
  if negb (existsb (Str.startswith (Str.lower prompt)) story_beginnings)
  then starter ++ Str.lower prompt
  else prompt.

(** The locals [removed_content], [is_safe], [warnings] of [validate]. *)
Record scan_state := mk_scan {
  removed : list string;
  safe : bool;
  warns : list string
}.

Definition removed_warning (matches : list string) : string :=
  "Removed potentially inappropriate content: " ++ Str.join ", " (Str.set_list matches).

(** One turn of the loop over [harmful_patterns]. *)
Definition check_pattern (text : string) (st : scan_state) (pat : Re.pattern) : scan_state :=
  match Re.findall pat text with
  | [] => st
  | matches =>
      mk_scan (removed st ++ matches) false (warns st ++ [removed_warning matches])
  end.

Definition check_harmful (prompt : string) : scan_state :=
  fold_left (check_pattern (Str.lower prompt)) harmful_patterns (mk_scan [] true []).

(** The loop over [replacements.items()]. *)
Definition clean (prompt : string) : string :=
  fold_left (fun cleaned pr => Re.sub_ignorecase (fst pr) (snd pr) cleaned)
            replacements prompt.

Definition generic_prompt (genre : string) : string :=
  "A gentle " ++ genre ++ " story about friendship and kindness".

Definition significantly_modified : string :=
  "Prompt was significantly modified for safety".

Definition validate (request : StoryRequest.t) : ValidatedPrompt.t :=
  let prompt := StoryRequest.prompt request in
  let st := check_harmful prompt in
  let removed_content := removed st in
  let is_safe := safe st in
  let warnings := warns st in
  let cleaned_prompt := clean prompt in
  let severe := negb is_safe && Nat.ltb 3 (List.length removed_content) in
  let cleaned_prompt :=
    if severe then generic_prompt (StoryRequest.genre request) else cleaned_prompt in
  let warnings :=
    if severe then warnings ++ [significantly_modified] else warnings in
  let minor := is_safe || Nat.leb (List.length removed_content) 3 in
  let cleaned_prompt :=
    if minor then _enhance_prompt cleaned_prompt (StoryRequest.genre request)
    else cleaned_prompt in
  ValidatedPrompt.mk prompt cleaned_prompt minor
                     (Str.set_list removed_content) warnings.

End PromptValidator.

(** ** story_generator.py *)

Module StoryGenerationPipeline.

Definition LENGTH_MAPPING : list (string * Z) :=
  [ ("short", 400%Z); ("medium", 600%Z); ("long", 800%Z) ].

(** The keyword arguments of one [model.generate_story(...)] call. *)
Record generate_story_args := mk_args {
  prompt : string;
  max_length : Z;
  temperature : float;
  top_p : float;
  repetition_penalty : float;
  num_return_sequences : Z
}.

Definition _extract_title (story_text : string) : string :=
  let lines :=
    map Str.strip
        (filter (fun l => Str.nonempty (Str.strip l))
                (Str.split_on Str.newline story_text)) in
  let from_first_sentence :=
    let first_sentence := Str.strip (hd EmptyString (Str.split_on "."%char story_text)) in
    if Nat.ltb 10 (String.length first_sentence)
       && Nat.ltb (String.length first_sentence) 100
    then first_sentence
    else "A Wonderful Story" in
  match lines with
  | first_line :: _ =>
      if Nat.ltb (String.length first_line) 80
         && negb (Str.endswith_char first_line "."%char)
      then first_line
      else
        match find (fun line => Str.startswith (Str.lower line) "title:")
                   (firstn 3 lines) with
        | Some line => Str.strip (Str.drop 6 line)
        | None => from_first_sentence
        end
  | [] => from_first_sentence
  end.

Definition _calculate_reading_time (word_count : Z) : string :=
  let minutes := Z.max 1 (word_count / 150) in
  Str.of_int minutes ++ "-" ++ Str.of_int (minutes + 1) ++ " minutes".

Definition default_text : string :=
  "Once upon a time, in a peaceful village, there lived a kind young child "
  ++ "who loved to help others. Every day, they would share their toys with friends "
  ++ "and learn new things about the world. Through friendship and kindness, "
  ++ "they discovered that the greatest adventures come from caring for others. "
  ++ "And they all lived happily ever after. The End.".

Definition _create_safe_default_story
           (request : StoryRequest.t) (validated : ValidatedPrompt.t) : GeneratedStory.t :=
  GeneratedStory.mk
    "A Story About Kindness"
    default_text
    (StoryRequest.genre request)
    (StoryRequest.age_group request)
    (Z.of_nat (List.length (Str.split default_text)))
    "2-3 minutes"
    true.

(** What a call of [generate] can raise. *)
Inductive exn :=
| GenerationFailed
| IndexError.

Inductive outcome (A : Type) :=
| Returned (a : A)
| Raised (e : exn).
Arguments Returned {A} a.
Arguments Raised {A} e.

(** The result of a run: what came back, the collaborator's state after
    it, and the calls made to the collaborator, oldest first. *)
Record run (W A : Type) := mk_run {
  result : outcome A;
  world : W;
  calls : list generate_story_args
}.
Arguments mk_run {W A}.
Arguments result {W A}.
Arguments world {W A}.
Arguments calls {W A}.

Section WithModel.

(** The generation collaborator [self.model]: an opaque capability with a
    state of its own (weights, sampler); [None] is a raised failure. *)
Variable World : Type.
Variable generate_story : generate_story_args -> World -> option (list string) * World.

Definition generate (request : StoryRequest.t) (w : World)
  : run World (GeneratedStory.t * ValidatedPrompt.t) :=
  let validated := PromptValidator.validate request in
  if negb (ValidatedPrompt.is_safe validated) then
    mk_run (Returned (_create_safe_default_story request validated, validated)) w []
  else
    let max_length := dict_get LENGTH_MAPPING (StoryRequest.story_length request) 400%Z in
    let args :=
      mk_args (ValidatedPrompt.cleaned_prompt validated) max_length
              0.8%float 0.9%float 1.2%float 1%Z in
    match generate_story args w with
    | (None, w') => mk_run (Raised GenerationFailed) w' [args]
    | (Some stories, w') =>
        match stories with
        | [] => mk_run (Raised IndexError) w' [args]
        | story_text :: _ =>
            let title := _extract_title story_text in
            let word_count := Z.of_nat (List.length (Str.split story_text)) in
            let reading_time := _calculate_reading_time word_count in
            let generated_story :=
              GeneratedStory.mk title story_text
                                (StoryRequest.genre request)
                                (StoryRequest.age_group request)
                                word_count reading_time true in
            mk_run (Returned (generated_story, validated)) w' [args]
        end
    end.

End WithModel.

End StoryGenerationPipeline.

(** ** tui/app.py: how the terminal front end builds a request and calls the
    pipeline

    What the user typed is given as the values [Prompt.ask] and [Confirm.ask]
    returned; what is printed on the console is left out. *)

Module StoryTUI.

Definition GENRES : list string :=
  [ "adventure"; "fantasy"; "friendship"; "learning";
    "animals"; "bedtime"; "funny"; "mystery" ].



(** [[str(i) for i in range(1, len(l) + 1)]]: the answers [Prompt.ask]
    accepts for a numbered menu. *)
Definition choices (l : list string) : list string :=
  map (fun i => Str.of_int (Z.of_nat i)) (seq 1 (List.length l)).

Inductive exn :=
| ValueError
| IndexError.

Inductive outcome (A : Type) :=
| Returned (a : A)
| Raised (e : exn).
Arguments Returned {A} a.
Arguments Raised {A} e.

(** [int(s)] for a decimal numeral with an optional minus sign; anything
    else is a [ValueError] here (Python also takes blanks, a plus sign and
    underscores, which no menu answer has). *)
Definition int (s : string) : option Z :=
  option_map Z.of_int (NilZero.int_of_string s).

(** [l[i]]: a negative index counts from the end. *)
Definition getitem (l : list string) (i : Z) : option string :=
  let n := Z.of_nat (List.length l) in
  if Z.leb 0 i && Z.ltb i n then nth_error l (Z.to_nat i)
  else if Z.leb (- n) i && Z.ltb i 0 then nth_error l (Z.to_nat (n + i))
  else None.

(** [l[int(choice) - 1]] *)
Definition pick (l : list string) (choice : string) : outcome string :=
  match int choice with
  | None => Raised ValueError
  | Some i =>
      match getitem l (i - 1) with
      | Some x => Returned x
      | None => Raised IndexError
      end
  end.







Section WithModel.

Variable World : Type.
Variable generate_story :
  StoryGenerationPipeline.generate_story_args -> World -> option (list string) * World.

(** What [create_story] gives back, the collaborator's state after it and
    the calls it received. *)
Record run := mk_run {
  result : outcome (option (GeneratedStory.t * ValidatedPrompt.t));
  world : World;
  calls : list StoryGenerationPipeline.generate_story_args
}.



End WithModel.

End StoryTUI.

(** ** Notions the properties are stated with *)

(** Every match of every harmful pattern in the lower-cased prompt, with
    repetitions, in the order the loop of [validate] collects them. *)
Definition harmful_occurrences (prompt : string) : list string :=
  flat_map (fun pat => Re.findall pat (Str.lower prompt))
           PromptValidator.harmful_patterns.

(** The distinct harmful terms of a prompt. *)
Definition harmful_terms (prompt : string) : list string :=
  Str.set_list (harmful_occurrences prompt).

Fixpoint all_chars (p : ascii -> bool) (s : string) : bool :=
  match s with
  | EmptyString => true
  | String c r => p c && all_chars p r
  end.

(** A non-empty word made of [\w] characters only. *)
Definition wordy (w : string) : bool := Str.nonempty w && all_chars Char.isword w.

Definition request (prompt genre : string) : StoryRequest.t :=
  StoryRequest.mk prompt genre "3-7" "short".

(** The arguments of the one call [generate] makes for a request. *)
Definition model_args (r : StoryRequest.t) : StoryGenerationPipeline.generate_story_args :=
  StoryGenerationPipeline.mk_args
    (ValidatedPrompt.cleaned_prompt (PromptValidator.validate r))
    (dict_get StoryGenerationPipeline.LENGTH_MAPPING (StoryRequest.story_length r) 400%Z)
    0.8%float 0.9%float 1.2%float 1%Z.

(** The words of all harmful patterns. *)
Definition harmful_vocabulary : list string :=
  List.concat PromptValidator.harmful_patterns.

(** The pattern categories with at least one match in the prompt. *)
Definition matching_categories (prompt : string) : list Re.pattern :=
  filter (fun pat => match Re.findall pat (Str.lower prompt) with [] => false | _ => true end)
         PromptValidator.harmful_patterns.

(** The places where a pattern of the replacement table matches a text. *)
Definition replaceable_occurrences (text : string) : list string :=
  flat_map (fun entry => Re.findall_from true (fst entry) None 0 text)
           PromptValidator.replacements.

Definition isdigit (c : ascii) : bool := Char.between 48 57 (Char.ord c).

(** * Properties *)

(** ** The loop over the harmful patterns *)

Section CheckLoop.

Variable text : string.

Let step := PromptValidator.check_pattern text.
Let found (pats : list Re.pattern) := flat_map (fun pat => Re.findall pat text) pats.

Lemma check_loop_removed (pats : list Re.pattern) (st : PromptValidator.scan_state) :
  PromptValidator.removed (fold_left step pats st)
  = PromptValidator.removed st ++ found pats.
Proof.
  revert st; induction pats as [|pat pats IH]; intros st; simpl.
  - now rewrite app_nil_r.
  - rewrite IH. unfold step, PromptValidator.check_pattern.
    destruct (Re.findall pat text) as [|m ms]; simpl.
    + reflexivity.
    + now rewrite <- app_assoc.
Qed.

Lemma check_loop_safe (pats : list Re.pattern) (st : PromptValidator.scan_state) :
  PromptValidator.safe (fold_left step pats st)
  = PromptValidator.safe st && match found pats with [] => true | _ => false end.
Proof.
  revert st; induction pats as [|pat pats IH]; intros st; simpl.
  - now rewrite andb_true_r.
  - rewrite IH. unfold step, PromptValidator.check_pattern.
    destruct (Re.findall pat text) as [|m ms]; simpl.
    + reflexivity.
    + now rewrite andb_false_r.
Qed.

Lemma check_loop_warns_grow (pats : list Re.pattern) (st : PromptValidator.scan_state) :
  exists more, PromptValidator.warns (fold_left step pats st)
               = PromptValidator.warns st ++ more
               /\ (found pats <> [] -> more <> [])
               /\ (found pats = [] -> more = [])
               /\ Forall (fun w => exists ms, w = PromptValidator.removed_warning ms) more.
Proof.
  revert st; induction pats as [|pat pats IH]; intros st; simpl.
  - exists []. rewrite app_nil_r. repeat split; auto.
  - destruct (IH (step st pat)) as (more & E & Hne & He & Hall).
    exists (match Re.findall pat text with
            | [] => more
            | ms => PromptValidator.removed_warning ms :: more
            end).
    rewrite E. unfold step, PromptValidator.check_pattern.
    destruct (Re.findall pat text) as [|m ms]; simpl.
    + repeat split; auto.
    + rewrite <- app_assoc. simpl. repeat split.
      * intros _; discriminate.
      * intros; discriminate.
      * constructor; eauto.
Qed.

End CheckLoop.

(** ** What [validate] computes, in terms of the occurrences *)

Lemma check_harmful_removed (prompt : string) :
  PromptValidator.removed (PromptValidator.check_harmful prompt)
  = harmful_occurrences prompt.
Proof.
  unfold PromptValidator.check_harmful. now rewrite check_loop_removed.
Qed.

Lemma check_harmful_safe (prompt : string) :
  PromptValidator.safe (PromptValidator.check_harmful prompt)
  = match harmful_occurrences prompt with [] => true | _ => false end.
Proof.
  unfold PromptValidator.check_harmful. now rewrite check_loop_safe.
Qed.

Lemma check_harmful_warns (prompt : string) :
  (harmful_occurrences prompt = [] ->
   PromptValidator.warns (PromptValidator.check_harmful prompt) = [])
  /\ (harmful_occurrences prompt <> [] ->
      PromptValidator.warns (PromptValidator.check_harmful prompt) <> [])
  /\ Forall (fun w => exists ms, w = PromptValidator.removed_warning ms)
            (PromptValidator.warns (PromptValidator.check_harmful prompt)).
Proof.
  unfold PromptValidator.check_harmful.
  destruct (check_loop_warns_grow (Str.lower prompt) PromptValidator.harmful_patterns
              (PromptValidator.mk_scan [] true [])) as (more & E & Hne & He & Hall).
  rewrite E. simpl. repeat split; auto.
Qed.

Lemma validate_is_safe (r : StoryRequest.t) :
  ValidatedPrompt.is_safe (PromptValidator.validate r)
  = Nat.leb (List.length (harmful_occurrences (StoryRequest.prompt r))) 3.
Proof.
  unfold PromptValidator.validate; simpl.
  rewrite check_harmful_safe, check_harmful_removed.
  destruct (harmful_occurrences (StoryRequest.prompt r)); reflexivity.
Qed.

Lemma validate_cleaned_prompt (r : StoryRequest.t) :
  ValidatedPrompt.cleaned_prompt (PromptValidator.validate r)
  = if Nat.leb (List.length (harmful_occurrences (StoryRequest.prompt r))) 3
    then PromptValidator._enhance_prompt
           (PromptValidator.clean (StoryRequest.prompt r)) (StoryRequest.genre r)
    else PromptValidator.generic_prompt (StoryRequest.genre r).
Proof.
  unfold PromptValidator.validate; simpl.
  rewrite check_harmful_safe, check_harmful_removed.
  destruct (harmful_occurrences (StoryRequest.prompt r)) as [|a [|b [|c [|d l]]]];
    reflexivity.
Qed.

Lemma validate_warnings (r : StoryRequest.t) :
  ValidatedPrompt.warnings (PromptValidator.validate r)
  = if Nat.leb (List.length (harmful_occurrences (StoryRequest.prompt r))) 3
    then PromptValidator.warns (PromptValidator.check_harmful (StoryRequest.prompt r))
    else PromptValidator.warns (PromptValidator.check_harmful (StoryRequest.prompt r))
         ++ [PromptValidator.significantly_modified].
Proof.
  unfold PromptValidator.validate; simpl.
  rewrite check_harmful_safe, check_harmful_removed.
  destruct (harmful_occurrences (StoryRequest.prompt r)) as [|a [|b [|c [|d l]]]];
    reflexivity.
Qed.

Lemma validate_removed_content (r : StoryRequest.t) :
  ValidatedPrompt.removed_content (PromptValidator.validate r)
  = harmful_terms (StoryRequest.prompt r).
Proof.
  unfold PromptValidator.validate, harmful_terms; simpl.
  now rewrite check_harmful_removed.
Qed.

Lemma set_list_nil_inv (l : list string) : Str.set_list l = [] -> l = [].
Proof.
  destruct l as [|x l]; [reflexivity|]. intros E.
  assert (In x (Str.set_list (x :: l))) as H
      by (apply nodup_In; left; reflexivity).
  rewrite E in H. destruct H.
Qed.

Lemma set_list_length (l : list string) :
  List.length (Str.set_list l) <= List.length l.
Proof.
  unfold Str.set_list. induction l as [|x l IH]; simpl.
  - lia.
  - destruct (in_dec string_dec x l); simpl; lia.
Qed.

Lemma removed_warning_not_modified (ms : list string) :
  PromptValidator.removed_warning ms <> PromptValidator.significantly_modified.
Proof. discriminate. Qed.

(** C2 (as amended): the severity threshold and the leniency rule are both
    decided by the number of harmful-term occurrences, repetitions counted.
    With 1 to 3 occurrences [is_safe] is true, [removed_content] is not empty,
    there is at least one warning and the prompt is not replaced; with more
    than 3 the prompt is replaced by the template and [is_safe] is false; and
    [is_safe] is false only then.  More than 3 distinct terms are more than 3
    occurrences. *)
Theorem validate_thresholds_count_occurrences (r : StoryRequest.t) :
  let n := List.length (harmful_occurrences (StoryRequest.prompt r)) in
  let v := PromptValidator.validate r in
  (1 <= n <= 3 ->
     ValidatedPrompt.is_safe v = true
     /\ ValidatedPrompt.removed_content v <> []
     /\ 1 <= List.length (ValidatedPrompt.warnings v)
     /\ ValidatedPrompt.cleaned_prompt v
        = PromptValidator._enhance_prompt
            (PromptValidator.clean (StoryRequest.prompt r)) (StoryRequest.genre r)
     /\ ~ In PromptValidator.significantly_modified (ValidatedPrompt.warnings v))
  /\ (3 < n ->
     ValidatedPrompt.is_safe v = false
     /\ ValidatedPrompt.cleaned_prompt v
        = PromptValidator.generic_prompt (StoryRequest.genre r)
     /\ In PromptValidator.significantly_modified (ValidatedPrompt.warnings v))
  /\ (ValidatedPrompt.is_safe v = false -> 3 < n)
  /\ (3 < List.length (harmful_terms (StoryRequest.prompt r)) -> 3 < n).
Proof.
  intros n v. subst v.
  rewrite validate_is_safe, validate_cleaned_prompt, validate_warnings,
    validate_removed_content.
  fold n.
  destruct (check_harmful_warns (StoryRequest.prompt r)) as (_ & Hne & Hall).
  repeat split.
  - apply Nat.leb_le; lia.
  - intros E. apply set_list_nil_inv in E. subst n. rewrite E in H. simpl in H. lia.
  - replace (Nat.leb n 3) with true by (symmetry; apply Nat.leb_le; lia).
    assert (harmful_occurrences (StoryRequest.prompt r) <> []) as Hocc.
    { intros E. subst n. rewrite E in H. simpl in H. lia. }
    apply Hne in Hocc.
    destruct (PromptValidator.warns _); [congruence | simpl; lia].
  - replace (Nat.leb n 3) with true by (symmetry; apply Nat.leb_le; lia).
    reflexivity.
  - replace (Nat.leb n 3) with true by (symmetry; apply Nat.leb_le; lia).
    intros Hin. rewrite Forall_forall in Hall.
    destruct (Hall _ Hin) as [ms E].
    symmetry in E. now apply removed_warning_not_modified in E.
  - apply Nat.leb_gt; lia.
  - replace (Nat.leb n 3) with false by (symmetry; apply Nat.leb_gt; lia).
    reflexivity.
  - replace (Nat.leb n 3) with false by (symmetry; apply Nat.leb_gt; lia).
    apply in_or_app. right. left. reflexivity.
  - intros E. apply Nat.leb_gt in E. lia.
  - intros H. pose proof (set_list_length (harmful_occurrences (StoryRequest.prompt r))).
    unfold harmful_terms in H. subst n. lia.
Qed.

(** C2, witness: a prompt with three occurrences of one term. *)
Lemma validate_thresholds_witness :
  ValidatedPrompt.is_safe (PromptValidator.validate (request "kill kill kill" "fantasy")) = true
  /\ ValidatedPrompt.removed_content
       (PromptValidator.validate (request "kill kill kill" "fantasy")) <> []
  /\ 1 <= List.length (ValidatedPrompt.warnings
                         (PromptValidator.validate (request "kill kill kill" "fantasy")))
  /\ ValidatedPrompt.cleaned_prompt
       (PromptValidator.validate (request "kill kill kill" "fantasy"))
     = PromptValidator._enhance_prompt (PromptValidator.clean "kill kill kill") "fantasy"
  /\ ~ In PromptValidator.significantly_modified
         (ValidatedPrompt.warnings
            (PromptValidator.validate (request "kill kill kill" "fantasy"))).
Proof.
  apply (proj1 (validate_thresholds_count_occurrences (request "kill kill kill" "fantasy"))).
  vm_compute. split; repeat constructor.
Defined.

(** C2, counterexample to the claim as stated: one distinct harmful term,
    repeated four times, is replaced by the template and is not safe. *)
Lemma repeated_term_counterexample :
  harmful_terms "kill kill kill kill" = ["kill"]
  /\ ValidatedPrompt.is_safe
       (PromptValidator.validate (request "kill kill kill kill" "fantasy")) = false
  /\ ValidatedPrompt.cleaned_prompt
       (PromptValidator.validate (request "kill kill kill kill" "fantasy"))
     = "A gentle fantasy story about friendship and kindness".
Proof. vm_compute. repeat split. Qed.

Lemma append_empty_r (s : string) : (s ++ "")%string = s.
Proof. induction s as [|c s IH]; simpl; [reflexivity | now rewrite IH]. Qed.

(** C5: [validate] returns a [ValidatedPrompt] for every request, with the
    prompt copied into [original_prompt]; for the empty prompt nothing is
    matched, the substitution changes nothing, [removed_content] and
    [warnings] are empty, [is_safe] is true and [cleaned_prompt] is exactly
    the opener of the request's genre. *)
Theorem validate_total_and_empty_prompt :
  (forall r : StoryRequest.t,
      exists v, PromptValidator.validate r = v
                /\ ValidatedPrompt.original_prompt v = StoryRequest.prompt r)
  /\ (forall genre age_group story_length : string,
         let v := PromptValidator.validate
                    (StoryRequest.mk "" genre age_group story_length) in
         harmful_occurrences "" = []
         /\ PromptValidator.clean "" = ""
         /\ ValidatedPrompt.original_prompt v = ""
         /\ ValidatedPrompt.removed_content v = []
         /\ ValidatedPrompt.warnings v = []
         /\ ValidatedPrompt.is_safe v = true
         /\ ValidatedPrompt.cleaned_prompt v
            = dict_get PromptValidator.genre_starters (Str.lower genre)
                       "Once upon a time, "
         /\ ValidatedPrompt.cleaned_prompt v
            = (dict_get PromptValidator.genre_starters (Str.lower genre)
                        "Once upon a time, " ++ "")%string).
Proof.
  split.
  - intros r. eexists. split; reflexivity.
  - intros genre age_group story_length v. subst v.
    rewrite validate_cleaned_prompt. simpl StoryRequest.prompt.
    simpl StoryRequest.genre.
    change (harmful_occurrences "") with (@nil string).
    change (PromptValidator.clean "") with "".
    unfold PromptValidator._enhance_prompt. simpl.
    rewrite append_empty_r.
    repeat split; reflexivity.
Qed.

(** ** The post-processor *)

(** C6: for a non-negative word count the reading time is
    "{minutes}-{minutes+1} minutes" with [minutes = max(1, word_count // 150)]:
    at least one minute, "1-2 minutes" below 300 words, "2-3 minutes" for
    300 words and "1-2 minutes" for 50. *)
Theorem calculate_reading_time_spec (word_count : Z) :
  (0 <= word_count)%Z ->
  let minutes := Z.max 1 (word_count / 150) in
  StoryGenerationPipeline._calculate_reading_time word_count
  = (Str.of_int minutes ++ "-" ++ Str.of_int (minutes + 1) ++ " minutes")%string
  /\ (1 <= minutes)%Z
  /\ (150 * minutes <= Z.max 150 word_count < 150 * (minutes + 1))%Z
  /\ ((word_count < 300)%Z ->
      StoryGenerationPipeline._calculate_reading_time word_count = "1-2 minutes")
  /\ StoryGenerationPipeline._calculate_reading_time 300 = "2-3 minutes"
  /\ StoryGenerationPipeline._calculate_reading_time 50 = "1-2 minutes".
Proof.
  intros Hpos minutes. subst minutes.
  pose proof (Z.div_mod word_count 150 ltac:(lia)) as Hdm.
  pose proof (Z.mod_pos_bound word_count 150 ltac:(lia)) as Hmod.
  repeat split; try lia.
  intros Hlt. unfold StoryGenerationPipeline._calculate_reading_time.
  replace (Z.max 1 (word_count / 150)) with 1%Z by lia.
  reflexivity.
Qed.

(** C6, witness: 450 words read in "3-4 minutes". *)
Lemma calculate_reading_time_witness :
  StoryGenerationPipeline._calculate_reading_time 450 = "3-4 minutes".
Proof.
  exact (proj1 (calculate_reading_time_spec 450 ltac:(lia))).
Defined.

(** C9: the safe-default story carries the literal "2-3 minutes", while its
    text has 59 whitespace-delimited tokens, fewer than 150, for which the
    operational formula gives "1-2 minutes". *)
Theorem default_story_reading_time_differs (r : StoryRequest.t) (v : ValidatedPrompt.t) :
  let story := StoryGenerationPipeline._create_safe_default_story r v in
  GeneratedStory.estimated_reading_time story = "2-3 minutes"
  /\ GeneratedStory.word_count story = 59%Z
  /\ (GeneratedStory.word_count story < 150)%Z
  /\ StoryGenerationPipeline._calculate_reading_time (GeneratedStory.word_count story)
     = "1-2 minutes"
  /\ GeneratedStory.estimated_reading_time story
     <> StoryGenerationPipeline._calculate_reading_time (GeneratedStory.word_count story).
Proof.
  intros story. subst story.
  assert (GeneratedStory.word_count
            (StoryGenerationPipeline._create_safe_default_story r v) = 59%Z) as E
      by (vm_compute; reflexivity).
  rewrite E. repeat split; try reflexivity. discriminate.
Qed.

(** C3: on the text of the claim the code returns the whole first line,
    prefix included: the first line is shorter than 80 characters and does not
    end with a period, so it is returned before the "title:" scan is reached.
    The scan strips the prefix only when the first line fails that test, as
    when it ends with a period. *)
Theorem extract_title_keeps_title_prefix :
  StoryGenerationPipeline._extract_title
    ("Title: The Brave Fox" ++ String Str.newline "Once upon a time...")
  = "Title: The Brave Fox"
  /\ StoryGenerationPipeline._extract_title
       ("Title: The Brave Fox." ++ String Str.newline "Once upon a time...")
     = "The Brave Fox.".
Proof. vm_compute. split; reflexivity. Qed.

(** ** The orchestrator, for any generation collaborator *)

Section Orchestrator.

Variable World : Type.
Variable generate_story :
  StoryGenerationPipeline.generate_story_args -> World -> option (list string) * World.

Local Abbreviation generate := (StoryGenerationPipeline.generate World generate_story).

Lemma generate_unsafe (r : StoryRequest.t) (w : World) :
  ValidatedPrompt.is_safe (PromptValidator.validate r) = false ->
  generate r w
  = StoryGenerationPipeline.mk_run
      (StoryGenerationPipeline.Returned
         (StoryGenerationPipeline._create_safe_default_story r (PromptValidator.validate r),
          PromptValidator.validate r))
      w [].
Proof.
  intros E. unfold StoryGenerationPipeline.generate. now rewrite E.
Qed.

Lemma generate_safe (r : StoryRequest.t) (w : World) :
  ValidatedPrompt.is_safe (PromptValidator.validate r) = true ->
  generate r w
  = match generate_story (model_args r) w with
    | (None, w') =>
        StoryGenerationPipeline.mk_run
          (StoryGenerationPipeline.Raised StoryGenerationPipeline.GenerationFailed)
          w' [model_args r]
    | (Some [], w') =>
        StoryGenerationPipeline.mk_run
          (StoryGenerationPipeline.Raised StoryGenerationPipeline.IndexError)
          w' [model_args r]
    | (Some (story_text :: _), w') =>
        StoryGenerationPipeline.mk_run
          (StoryGenerationPipeline.Returned
             (GeneratedStory.mk
                (StoryGenerationPipeline._extract_title story_text)
                story_text
                (StoryRequest.genre r)
                (StoryRequest.age_group r)
                (Z.of_nat (List.length (Str.split story_text)))
                (StoryGenerationPipeline._calculate_reading_time
                   (Z.of_nat (List.length (Str.split story_text))))
                true,
              PromptValidator.validate r))
          w' [model_args r]
    end.
Proof.
  intros E. unfold StoryGenerationPipeline.generate. rewrite E. simpl negb. cbv iota.
  fold (model_args r).
  destruct (generate_story (model_args r) w) as [[[|s ss]|] w']; reflexivity.
Qed.

Lemma generate_calls_safe (r : StoryRequest.t) (w : World) :
  ValidatedPrompt.is_safe (PromptValidator.validate r) = true ->
  StoryGenerationPipeline.calls (generate r w) = [model_args r].
Proof.
  intros E. rewrite (generate_safe r w E).
  destruct (generate_story (model_args r) w) as [[[|s ss]|] w']; reflexivity.
Qed.

(** C1: the collaborator is called only when the validated prompt is safe;
    when it is not, [generate] returns the safe-default story, whose title,
    text and reading time are fixed literals, with no call of the
    collaborator and its state untouched; and every story [generate] returns
    has [is_safe = true]. *)
Theorem generate_guards_the_model (r : StoryRequest.t) (w : World) :
  let v := PromptValidator.validate r in
  let fallback := StoryGenerationPipeline._create_safe_default_story r v in
  (StoryGenerationPipeline.calls (generate r w) <> [] -> ValidatedPrompt.is_safe v = true)
  /\ (ValidatedPrompt.is_safe v = false ->
      generate r w
      = StoryGenerationPipeline.mk_run
          (StoryGenerationPipeline.Returned (fallback, v)) w [])
  /\ GeneratedStory.title fallback = "A Story About Kindness"
  /\ GeneratedStory.story_text fallback = StoryGenerationPipeline.default_text
  /\ GeneratedStory.estimated_reading_time fallback = "2-3 minutes"
  /\ (forall story v',
         StoryGenerationPipeline.result (generate r w)
         = StoryGenerationPipeline.Returned (story, v') ->
         GeneratedStory.is_safe story = true /\ v' = v).
Proof.
  intros v fallback. subst v fallback.
  destruct (ValidatedPrompt.is_safe (PromptValidator.validate r)) eqn:E.
  - repeat split; try reflexivity; try discriminate.
    + rewrite (generate_safe r w E) in H.
      destruct (generate_story (model_args r) w) as [[[|s ss]|] w'];
        simpl in H; try discriminate.
      now inversion H.
    + rewrite (generate_safe r w E) in H.
      destruct (generate_story (model_args r) w) as [[[|s ss]|] w'];
        simpl in H; try discriminate.
      now inversion H.
  - rewrite (generate_unsafe r w E). simpl.
    repeat split; try reflexivity; try congruence.
    inversion H; reflexivity.
Qed.

(** C4: for a request validated safe the collaborator is called exactly
    once, with the enhanced cleaned prompt, the length from the table
    short 400, medium 600, long 800 (400 for any other value),
    temperature 0.8, top_p 0.9, repetition penalty 1.2 and one sequence; the
    first sequence returned is the story text. *)
Theorem generate_calls_the_model_once (r : StoryRequest.t) (w : World) :
  ValidatedPrompt.is_safe (PromptValidator.validate r) = true ->
  let max_length :=
    dict_get StoryGenerationPipeline.LENGTH_MAPPING (StoryRequest.story_length r) 400%Z in
  let args :=
    StoryGenerationPipeline.mk_args
      (PromptValidator._enhance_prompt
         (PromptValidator.clean (StoryRequest.prompt r)) (StoryRequest.genre r))
      max_length 0.8%float 0.9%float 1.2%float 1%Z in
  StoryGenerationPipeline.calls (generate r w) = [args]
  /\ StoryGenerationPipeline.world (generate r w) = snd (generate_story args w)
  /\ (forall story_text rest,
         fst (generate_story args w) = Some (story_text :: rest) ->
         exists story,
           StoryGenerationPipeline.result (generate r w)
           = StoryGenerationPipeline.Returned (story, PromptValidator.validate r)
           /\ GeneratedStory.story_text story = story_text)
  /\ (fst (generate_story args w) = None ->
      StoryGenerationPipeline.result (generate r w)
      = StoryGenerationPipeline.Raised StoryGenerationPipeline.GenerationFailed)
  /\ (StoryRequest.story_length r = "short" -> max_length = 400%Z)
  /\ (StoryRequest.story_length r = "medium" -> max_length = 600%Z)
  /\ (StoryRequest.story_length r = "long" -> max_length = 800%Z)
  /\ (StoryRequest.story_length r <> "short" ->
      StoryRequest.story_length r <> "medium" ->
      StoryRequest.story_length r <> "long" -> max_length = 400%Z).
Proof.
  intros E max_length args.
  assert (model_args r = args) as A.
  { unfold model_args. rewrite validate_cleaned_prompt.
    rewrite validate_is_safe in E. rewrite E. reflexivity. }
  rewrite (generate_safe r w E), A.
  subst max_length.
  repeat split.
  - destruct (generate_story args w) as [[[|s ss]|] w']; reflexivity.
  - destruct (generate_story args w) as [[[|s ss]|] w']; reflexivity.
  - intros story_text rest H.
    destruct (generate_story args w) as [[[|s ss]|] w']; simpl in H; try discriminate.
    inversion H; subst. eexists. split; reflexivity.
  - intros H.
    destruct (generate_story args w) as [[[|s ss]|] w']; simpl in H; try discriminate.
    reflexivity.
  - intros ->. reflexivity.
  - intros ->. reflexivity.
  - intros ->. reflexivity.
  - intros H1 H2 H3.
    unfold StoryGenerationPipeline.LENGTH_MAPPING. cbn [dict_get].
    apply String.eqb_neq in H1, H2, H3.
    rewrite (String.eqb_sym "short"), H1, (String.eqb_sym "medium"), H2,
      (String.eqb_sym "long"), H3.
    reflexivity.
Qed.

(** C10: the prompt "kill" is flagged ([removed_content] is ["kill"]) and
    still safe by leniency; no entry of the replacement table has "kill"
    among its words, so the substitution leaves it alone, and the prompt the
    collaborator is called with is the genre opener followed by "kill". *)
Theorem flagged_term_reaches_the_model (genre age_group story_length : string) (w : World) :
  let r := StoryRequest.mk "kill" genre age_group story_length in
  let starter :=
    dict_get PromptValidator.genre_starters (Str.lower genre) "Once upon a time, " in
  harmful_occurrences "kill" = ["kill"]
  /\ ValidatedPrompt.removed_content (PromptValidator.validate r) = ["kill"]
  /\ ValidatedPrompt.is_safe (PromptValidator.validate r) = true
  /\ existsb (existsb (String.eqb "kill")) PromptValidator.harmful_patterns = true
  /\ existsb (fun entry => existsb (String.eqb "kill") (fst entry))
             PromptValidator.replacements = false
  /\ PromptValidator.clean "kill" = "kill"
  /\ ValidatedPrompt.cleaned_prompt (PromptValidator.validate r) = (starter ++ "kill")%string
  /\ map StoryGenerationPipeline.prompt (StoryGenerationPipeline.calls (generate r w))
     = [(starter ++ "kill")%string].
Proof.
  intros r starter.
  assert (ValidatedPrompt.is_safe (PromptValidator.validate r) = true) as E
      by (rewrite validate_is_safe; reflexivity).
  assert (ValidatedPrompt.cleaned_prompt (PromptValidator.validate r)
          = (starter ++ "kill")%string) as C
      by (rewrite validate_cleaned_prompt; reflexivity).
  rewrite (generate_calls_safe r w E). unfold model_args. simpl map. rewrite C.
  repeat split; try reflexivity; assumption.
Qed.

End Orchestrator.

(** C1, witness: a prompt with four occurrences of a harmful term, and a
    collaborator that would fail if it were called. *)
Lemma generate_guards_the_model_witness :
  StoryGenerationPipeline.generate unit (fun _ w => (None, w))
    (request "kill kill kill kill" "fantasy") tt
  = StoryGenerationPipeline.mk_run
      (StoryGenerationPipeline.Returned
         (StoryGenerationPipeline._create_safe_default_story
            (request "kill kill kill kill" "fantasy")
            (PromptValidator.validate (request "kill kill kill kill" "fantasy")),
          PromptValidator.validate (request "kill kill kill kill" "fantasy")))
      tt [].
Proof.
  apply (proj1 (proj2 (generate_guards_the_model unit (fun _ w => (None, w))
                         (request "kill kill kill kill" "fantasy") tt))).
  vm_compute. reflexivity.
Defined.

(** C4, witness: a medium-length request with a harmless prompt, and a
    collaborator that echoes the prompt. *)
Lemma generate_calls_the_model_once_witness :
  StoryGenerationPipeline.calls
    (StoryGenerationPipeline.generate unit
       (fun a w => (Some [StoryGenerationPipeline.prompt a], w))
       (StoryRequest.mk "a fox finds a friend" "animals" "3-7" "medium") tt)
  = [StoryGenerationPipeline.mk_args
       "In a forest where animals could talk, a fox finds a friend"
       600%Z 0.8%float 0.9%float 1.2%float 1%Z].
Proof.
  apply (proj1 (generate_calls_the_model_once unit
                  (fun a w => (Some [StoryGenerationPipeline.prompt a], w))
                  (StoryRequest.mk "a fox finds a friend" "animals" "3-7" "medium") tt
                  ltac:(vm_compute; reflexivity))).
Defined.

(** ** Titles of blank texts *)

Lemma strip_space_cons (c : ascii) (s : string) :
  Char.isspace c = true -> Str.strip (String c s) = Str.strip s.
Proof. intros H. unfold Str.strip. simpl. now rewrite H. Qed.

Lemma strip_all_space (s : string) :
  all_chars Char.isspace s = true -> Str.strip s = "".
Proof.
  induction s as [|c s IH]; simpl; intros H.
  - reflexivity.
  - apply andb_true_iff in H. destruct H as [Hc Hs].
    rewrite (strip_space_cons c s Hc). auto.
Qed.

Lemma split_on_all_space (sep : ascii) (s : string) :
  all_chars Char.isspace s = true ->
  Forall (fun l => all_chars Char.isspace l = true) (Str.split_on sep s).
Proof.
  induction s as [|c s IH]; simpl; intros H.
  - repeat constructor.
  - apply andb_true_iff in H. destruct H as [Hc Hs].
    specialize (IH Hs).
    destruct (Ascii.eqb c sep).
    + constructor; [reflexivity | assumption].
    + destruct (Str.split_on sep s) as [|p ps].
      * repeat constructor. simpl. now rewrite Hc.
      * inversion IH; subst. constructor; [|assumption].
        simpl. rewrite Hc. assumption.
Qed.

Lemma no_line_in_blank_pieces (pieces : list string) :
  Forall (fun l => all_chars Char.isspace l = true) pieces ->
  filter (fun l => Str.nonempty (Str.strip l)) pieces = [].
Proof.
  induction 1 as [|l pieces Hl _ IH]; simpl.
  - reflexivity.
  - now rewrite (strip_all_space l Hl).
Qed.

(** C8: a text made of whitespace only, the empty text included, gets the
    default title. *)
Theorem extract_title_of_blank_text (story_text : string) :
  all_chars Char.isspace story_text = true ->
  StoryGenerationPipeline._extract_title story_text = "A Wonderful Story".
Proof.
  intros H. unfold StoryGenerationPipeline._extract_title.
  rewrite (no_line_in_blank_pieces _ (split_on_all_space Str.newline story_text H)).
  simpl map. cbv iota.
  pose proof (split_on_all_space "."%char story_text H) as Hdot.
  destruct (Str.split_on "." story_text) as [|p ps]; simpl hd.
  - reflexivity.
  - inversion Hdot; subst.
    now rewrite (strip_all_space p).
Qed.

(** C8, witness: spaces, a tab and two line breaks. *)
Lemma extract_title_of_blank_text_witness :
  StoryGenerationPipeline._extract_title
    (String " " (String Str.newline (String (ascii_of_nat 9)
       (String " " (String Str.newline (String " " EmptyString))))))
  = "A Wonderful Story".
Proof.
  apply extract_title_of_blank_text. vm_compute. reflexivity.
Defined.

Lemma take_length_le (n : nat) (s : string) :
  String.length (Str.take n s) <= String.length s.
Proof.
  revert s. induction n as [|n IH]; intros [|c s]; simpl; auto with arith.
Qed.

Lemma match_at_length (ignorecase : bool) (alts : Re.pattern)
      (before : option ascii) (s m : string) :
  Re.match_at ignorecase alts before s = Some m ->
  String.length m <= String.length s.
Proof.
  unfold Re.match_at.
  destruct (Re.boundary before (Re.head s)); [|discriminate].
  induction alts as [|w ws IH]; simpl; [discriminate|].
  destruct (Re.literal ignorecase w s); [|exact IH].
  destruct (Re.boundary _ _); [|exact IH].
  intros E. inversion E; subst. apply take_length_le.
Qed.

(** ** Scanning a text around a non-word character

    For a pattern whose alternatives are words, a match never contains a
    non-word character, so the scan of [u ++ sep ++ v] is the scan of [u]
    followed by the scan of [v]. *)

Section ScanAroundSeparator.

Variable alts : Re.pattern.
Hypothesis alts_wordy : Forall (fun w => wordy w = true) alts.

Variable sep : ascii.
Hypothesis sep_not_word : Char.isword sep = false.

Lemma word_char_is_not_sep (p : ascii) : Char.isword p = true -> Ascii.eqb p sep = false.
Proof.
  intros Hp. destruct (Ascii.eqb_spec p sep) as [->|]; [congruence | reflexivity].
Qed.

Lemma literal_before_sep (w u v : string) :
  all_chars Char.isword w = true ->
  Re.literal false w (u ++ String sep v)
  = option_map (fun rest => (rest ++ String sep v)%string) (Re.literal false w u).
Proof.
  revert u. induction w as [|p w IH]; intros u Hw.
  - destruct u; reflexivity.
  - simpl in Hw. apply andb_true_iff in Hw. destruct Hw as [Hp Hw].
    destruct u as [|c u]; simpl.
    + now rewrite (word_char_is_not_sep p Hp).
    + destruct (Ascii.eqb p c); [now apply IH | reflexivity].
Qed.

Lemma take_of_matched_literal (ignorecase : bool) (w u rest x : string) :
  Re.literal ignorecase w u = Some rest ->
  Str.take (String.length w) (u ++ x) = Str.take (String.length w) u.
Proof.
  revert u. induction w as [|p w IH]; intros u H.
  - reflexivity.
  - destruct u as [|c u]; simpl in H; [discriminate|].
    destruct (Char.eqb_case ignorecase p c); [|discriminate].
    simpl. f_equal. now apply IH.
Qed.

Lemma boundary_before_sep (b : option ascii) (rest v : string) :
  Re.boundary b (Re.head (rest ++ String sep v)) = Re.boundary b (Re.head rest).
Proof.
  destruct rest; simpl; [|reflexivity].
  unfold Re.boundary. simpl. now rewrite sep_not_word.
Qed.

Lemma alternatives_before_sep (before : option ascii) (u v : string) :
  Re.alternatives false alts before (u ++ String sep v)
  = Re.alternatives false alts before u.
Proof.
  induction alts_wordy as [|w ws Hw Hws IH]; simpl.
  - reflexivity.
  - unfold wordy in Hw. apply andb_true_iff in Hw. destruct Hw as [_ Hw].
    rewrite (literal_before_sep w u v Hw).
    destruct (Re.literal false w u) as [rest|] eqn:L; simpl.
    + rewrite (take_of_matched_literal false w u rest _ L), boundary_before_sep.
      now rewrite (IH Hws).
    + apply (IH Hws).
Qed.

Lemma match_at_before_sep (before : option ascii) (u v : string) :
  Re.match_at false alts before (u ++ String sep v) = Re.match_at false alts before u.
Proof.
  unfold Re.match_at.
  now rewrite boundary_before_sep, alternatives_before_sep.
Qed.

Lemma no_match_in_empty_text (before : option ascii) :
  Re.match_at false alts before "" = None.
Proof.
  unfold Re.match_at. destruct (Re.boundary before (Re.head "")); [|reflexivity].
  induction alts_wordy as [|w ws Hw Hws IH]; simpl.
  - reflexivity.
  - destruct w as [|p w]; [discriminate Hw | apply (IH Hws)].
Qed.

Lemma no_match_at_sep (before : option ascii) (v : string) :
  Re.match_at false alts before (String sep v) = None.
Proof.
  change (String sep v) with ("" ++ String sep v)%string.
  rewrite match_at_before_sep. apply no_match_in_empty_text.
Qed.

Lemma findall_before_sep (v u : string) :
  forall (before : option ascii) (skip : nat),
    skip <= String.length u ->
    Re.findall_from false alts before skip (u ++ String sep v)
    = Re.findall_from false alts before skip u
      ++ Re.findall_from false alts (Some sep) 0 v.
Proof.
  induction u as [|c u IH]; intros before skip Hskip.
  - simpl in Hskip. replace skip with 0 by lia. simpl "++"%string.
    cbn [Re.findall_from]. now rewrite no_match_at_sep.
  - simpl "++"%string. cbn [Re.findall_from].
    destruct skip as [|k].
    + change (String c (u ++ String sep v)) with (String c u ++ String sep v)%string.
      rewrite match_at_before_sep.
      destruct (Re.match_at false alts before (String c u)) as [m|] eqn:M.
      * simpl. f_equal. apply IH.
        pose proof (match_at_length false alts before (String c u) m M) as L.
        simpl in L. lia.
      * apply IH. lia.
    + apply IH. simpl in Hskip. lia.
Qed.

End ScanAroundSeparator.

Lemma alternatives_before_class (ignorecase : bool) (alts : Re.pattern)
      (b1 b2 : option ascii) (s : string) :
  Re.isword_at b1 = Re.isword_at b2 ->
  Re.alternatives ignorecase alts b1 s = Re.alternatives ignorecase alts b2 s.
Proof.
  intros E. induction alts as [|w ws IH]; simpl.
  - reflexivity.
  - destruct (Re.literal ignorecase w s); [|assumption].
    destruct (Str.last (Str.take (String.length w) s)).
    + now rewrite IH.
    + unfold Re.boundary. now rewrite E, IH.
Qed.

Lemma findall_before_class (ignorecase : bool) (alts : Re.pattern)
      (b1 b2 : option ascii) (skip : nat) (s : string) :
  Re.isword_at b1 = Re.isword_at b2 ->
  Re.findall_from ignorecase alts b1 skip s = Re.findall_from ignorecase alts b2 skip s.
Proof.
  intros E. destruct s as [|c s]; [reflexivity|].
  cbn [Re.findall_from]. destruct skip; [|reflexivity].
  unfold Re.match_at, Re.boundary. rewrite E.
  now rewrite (alternatives_before_class ignorecase alts b1 b2 _ E).
Qed.

(** ** Validating the template again *)

Lemma lower_app (a b : string) :
  Str.lower (a ++ b) = (Str.lower a ++ Str.lower b)%string.
Proof. induction a as [|c a IH]; simpl; [reflexivity | now rewrite IH]. Qed.

Lemma findall_in_template (alts : Re.pattern) (g : string) :
  Forall (fun w => wordy w = true) alts ->
  Re.findall_from false alts None 0 "a gentle" = [] ->
  Re.findall_from false alts (Some " "%char) 0 "story about friendship and kindness" = [] ->
  Re.findall alts ("a gentle " ++ g ++ " story about friendship and kindness")
  = Re.findall alts g.
Proof.
  intros W Hhead Htail. unfold Re.findall.
  change ("a gentle " ++ g ++ " story about friendship and kindness")%string
    with ("a gentle"
          ++ String " " (g ++ String " " "story about friendship and kindness"))%string.
  rewrite (findall_before_sep alts W " "%char eq_refl) by (simpl; lia).
  rewrite Hhead. simpl app.
  rewrite (findall_before_sep alts W " "%char eq_refl) by lia.
  rewrite Htail, app_nil_r.
  apply findall_before_class. reflexivity.
Qed.

Lemma harmful_patterns_wordy :
  Forall (Forall (fun w => wordy w = true)) PromptValidator.harmful_patterns.
Proof. repeat constructor. Qed.

Lemma harmful_occurrences_of_template (genre : string) :
  harmful_occurrences (PromptValidator.generic_prompt genre) = harmful_occurrences genre.
Proof.
  unfold harmful_occurrences, PromptValidator.generic_prompt.
  rewrite !lower_app.
  change (Str.lower "A gentle ") with "a gentle ".
  change (Str.lower " story about friendship and kindness")
    with " story about friendship and kindness".
  pose proof harmful_patterns_wordy as W.
  unfold PromptValidator.harmful_patterns in *.
  repeat match type of W with
         | Forall _ (_ :: _) => inversion W as [|? ? ? W']; subst; clear W; rename W' into W
         end.
  cbn [flat_map].
  rewrite !findall_in_template by (assumption || reflexivity).
  reflexivity.
Qed.

(** C7 (as amended): when validation has replaced the prompt by the
    template, validating that cleaned prompt again with the same genre finds
    exactly the harmful terms of the genre string itself; so if the genre
    matches no harmful pattern, as none of the eight known genres does, the
    second validation returns an empty [removed_content], no warning and
    [is_safe = true]. *)
Theorem revalidating_the_template (r : StoryRequest.t) :
  ValidatedPrompt.cleaned_prompt (PromptValidator.validate r)
  = PromptValidator.generic_prompt (StoryRequest.genre r) ->
  let again :=
    PromptValidator.validate
      (StoryRequest.mk (ValidatedPrompt.cleaned_prompt (PromptValidator.validate r))
                       (StoryRequest.genre r)
                       (StoryRequest.age_group r)
                       (StoryRequest.story_length r)) in
  ValidatedPrompt.removed_content again = harmful_terms (StoryRequest.genre r)
  /\ (harmful_occurrences (StoryRequest.genre r) = [] ->
      ValidatedPrompt.removed_content again = []
      /\ ValidatedPrompt.warnings again = []
      /\ ValidatedPrompt.is_safe again = true)
  /\ Forall (fun known => harmful_occurrences (fst known) = [])
            PromptValidator.genre_starters.
Proof.
  intros E again. subst again. rewrite E.
  rewrite validate_removed_content, validate_is_safe, validate_warnings.
  simpl StoryRequest.prompt.
  destruct (check_harmful_warns (PromptValidator.generic_prompt (StoryRequest.genre r)))
    as (Hnone & _ & _).
  rewrite harmful_occurrences_of_template in Hnone.
  unfold harmful_terms. rewrite !harmful_occurrences_of_template.
  split; [reflexivity|]. split.
  - intros G. rewrite G. simpl. repeat split; auto.
  - repeat constructor.
Qed.

(** C7, witness: four harmful terms and the genre "fantasy". *)
Lemma revalidating_the_template_witness :
  ValidatedPrompt.removed_content
    (PromptValidator.validate
       (StoryRequest.mk
          (ValidatedPrompt.cleaned_prompt
             (PromptValidator.validate (request "kill death die murder" "fantasy")))
          "fantasy" "3-7" "short"))
  = harmful_terms "fantasy".
Proof.
  apply (proj1 (revalidating_the_template (request "kill death die murder" "fantasy")
                  ltac:(vm_compute; reflexivity))).
Defined.

(** C7, counterexample to the claim as stated: with the genre "war" the
    template itself contains a harmful term, and the second validation
    removes it. *)
Lemma template_with_harmful_genre_counterexample :
  ValidatedPrompt.cleaned_prompt
    (PromptValidator.validate (request "kill death die murder" "war"))
  = "A gentle war story about friendship and kindness"
  /\ ValidatedPrompt.removed_content
       (PromptValidator.validate
          (request "A gentle war story about friendship and kindness" "war"))
     = ["war"].
Proof. vm_compute. split; reflexivity. Qed.

(** * Further properties of the validator *)

(** X1: a prompt is passed on untouched by the safety logic exactly when no
    harmful pattern matches it: [removed_content] is empty iff there is no
    occurrence, [warnings] is empty iff there is no occurrence, and then
    [is_safe] is true and the cleaned prompt is the enhanced substitution. *)
Theorem validate_harmless_prompt (r : StoryRequest.t) :
  let v := PromptValidator.validate r in
  (ValidatedPrompt.removed_content v = [] <-> harmful_occurrences (StoryRequest.prompt r) = [])
  /\ (ValidatedPrompt.warnings v = [] <-> harmful_occurrences (StoryRequest.prompt r) = [])
  /\ (harmful_occurrences (StoryRequest.prompt r) = [] ->
      ValidatedPrompt.is_safe v = true
      /\ ValidatedPrompt.cleaned_prompt v
         = PromptValidator._enhance_prompt
             (PromptValidator.clean (StoryRequest.prompt r)) (StoryRequest.genre r)).
Proof.
  intros v. subst v.
  rewrite validate_removed_content, validate_warnings, validate_is_safe,
    validate_cleaned_prompt.
  destruct (check_harmful_warns (StoryRequest.prompt r)) as (Hnone & Hsome & _).
  unfold harmful_terms.
  repeat split.
  - apply set_list_nil_inv.
  - intros ->. reflexivity.
  - intros E.
    destruct (harmful_occurrences (StoryRequest.prompt r)) as [|t ts] eqn:O;
      [reflexivity|].
    exfalso. apply Hsome; [discriminate|].
    destruct (Nat.leb _ 3); [assumption|].
    destruct (PromptValidator.warns _); [reflexivity | discriminate].
  - intros E. rewrite E. simpl. auto.
  - rewrite H. reflexivity.
  - rewrite H. reflexivity.
Qed.

(** X1, witness: a prompt without any harmful word. *)
Lemma validate_harmless_prompt_witness :
  ValidatedPrompt.is_safe
    (PromptValidator.validate (request "a fox finds a friend" "animals")) = true
  /\ ValidatedPrompt.cleaned_prompt
       (PromptValidator.validate (request "a fox finds a friend" "animals"))
     = PromptValidator._enhance_prompt
         (PromptValidator.clean "a fox finds a friend") "animals".
Proof.
  apply (proj2 (proj2 (validate_harmless_prompt (request "a fox finds a friend" "animals")))).
  vm_compute. reflexivity.
Defined.

(** ** What [findall] returns *)

Lemma literal_exact_take (w s rest : string) :
  Re.literal false w s = Some rest -> Str.take (String.length w) s = w.
Proof.
  revert s. induction w as [|p w IH]; intros s H.
  - reflexivity.
  - destruct s as [|c s]; simpl in H; [discriminate|].
    destruct (Ascii.eqb_spec p c) as [->|]; [|discriminate].
    simpl. f_equal. now apply IH.
Qed.

Lemma alternatives_exact_in (alts : Re.pattern) (before : option ascii) (s m : string) :
  Re.alternatives false alts before s = Some m -> In m alts.
Proof.
  induction alts as [|w ws IH]; simpl; [discriminate|].
  destruct (Re.literal false w s) as [rest|] eqn:L.
  - rewrite (literal_exact_take w s rest L).
    destruct (Re.boundary _ _).
    + intros E. inversion E. now left.
    + intros E. right. now apply IH.
  - intros E. right. now apply IH.
Qed.

Lemma findall_from_exact_in (alts : Re.pattern) (s : string) :
  forall (before : option ascii) (skip : nat) (m : string),
    In m (Re.findall_from false alts before skip s) -> In m alts.
Proof.
  induction s as [|c s IH]; intros before skip m; cbn [Re.findall_from].
  - intros [].
  - destruct skip as [|k]; [|apply IH].
    destruct (Re.match_at false alts before (String c s)) as [m'|] eqn:A; [|apply IH].
    intros [<-|H].
    + unfold Re.match_at in A.
      destruct (Re.boundary before (Re.head (String c s))); [|discriminate].
      exact (alternatives_exact_in alts before _ _ A).
    + exact (IH _ _ _ H).
Qed.

Lemma harmful_occurrences_in_vocabulary (prompt t : string) :
  In t (harmful_occurrences prompt) -> In t harmful_vocabulary.
Proof.
  unfold harmful_occurrences, harmful_vocabulary. intros H.
  apply in_flat_map in H. destruct H as (pat & Hpat & Ht).
  apply in_concat. exists pat. split; [assumption|].
  exact (findall_from_exact_in pat _ _ _ _ Ht).
Qed.

(** X2: [removed_content] lists each harmful term found once: it has no
    duplicates, its members are exactly the terms that occur in the
    lower-cased prompt, every member is a word of the harmful patterns, and
    so it never has more than 23 entries. *)
Theorem removed_content_is_a_set_of_harmful_words (r : StoryRequest.t) :
  let removed := ValidatedPrompt.removed_content (PromptValidator.validate r) in
  NoDup removed
  /\ (forall t, In t removed <-> In t (harmful_occurrences (StoryRequest.prompt r)))
  /\ (forall t, In t removed -> In t harmful_vocabulary)
  /\ List.length removed <= 23.
Proof.
  intros removed. subst removed. rewrite validate_removed_content.
  unfold harmful_terms, Str.set_list.
  assert (forall t, In t (nodup string_dec (harmful_occurrences (StoryRequest.prompt r)))
                    -> In t harmful_vocabulary) as V.
  { intros t H. apply nodup_In in H.
    exact (harmful_occurrences_in_vocabulary _ _ H). }
  repeat split.
  - apply NoDup_nodup.
  - apply nodup_In.
  - apply nodup_In.
  - exact V.
  - change 23 with (List.length harmful_vocabulary).
    apply NoDup_incl_length; [apply NoDup_nodup | exact V].
Qed.

(** ** The warnings, one by one *)

Lemma check_loop_warns_exact (text : string) (pats : list Re.pattern)
      (st : PromptValidator.scan_state) :
  PromptValidator.warns (fold_left (PromptValidator.check_pattern text) pats st)
  = PromptValidator.warns st
    ++ map (fun pat => PromptValidator.removed_warning (Re.findall pat text))
           (filter (fun pat => match Re.findall pat text with [] => false | _ => true end)
                   pats).
Proof.
  revert st. induction pats as [|pat pats IH]; intros st; simpl.
  - now rewrite app_nil_r.
  - rewrite IH. unfold PromptValidator.check_pattern.
    destruct (Re.findall pat text) as [|m ms] eqn:F; simpl.
    + reflexivity.
    + now rewrite F, <- app_assoc.
Qed.

(** X3: the warnings are, in the order of the pattern categories, one
    "Removed potentially inappropriate content" notice for each category with a
    match, followed by the "significantly modified" notice exactly when the
    prompt is judged unsafe; there are never more than six. *)
Theorem warnings_one_per_matching_category (r : StoryRequest.t) :
  let v := PromptValidator.validate r in
  let prompt := StoryRequest.prompt r in
  ValidatedPrompt.warnings v
  = map (fun pat => PromptValidator.removed_warning (Re.findall pat (Str.lower prompt)))
        (matching_categories prompt)
    ++ (if ValidatedPrompt.is_safe v then [] else [PromptValidator.significantly_modified])
  /\ List.length (ValidatedPrompt.warnings v)
     = List.length (matching_categories prompt)
       + (if ValidatedPrompt.is_safe v then 0 else 1)
  /\ List.length (ValidatedPrompt.warnings v) <= 6.
Proof.
  intros v prompt. subst v prompt.
  rewrite validate_warnings, validate_is_safe.
  unfold PromptValidator.check_harmful. rewrite check_loop_warns_exact.
  cbn [PromptValidator.warns]. rewrite !app_nil_l.
  fold (matching_categories (StoryRequest.prompt r)).
  assert (List.length (matching_categories (StoryRequest.prompt r)) <= 5) as L.
  { unfold matching_categories.
    change 5 with (List.length PromptValidator.harmful_patterns).
    apply filter_length_le. }
  destruct (Nat.leb _ 3).
  - rewrite app_nil_r, length_map. repeat split; lia.
  - rewrite length_app, length_map. simpl. repeat split; lia.
Qed.

(** ** Letter case *)

Lemma char_lower_idempotent (c : ascii) : Char.lower (Char.lower c) = Char.lower c.
Proof.
  destruct c as [[] [] [] [] [] [] [] []]; reflexivity.
Qed.

Lemma lower_idempotent (s : string) : Str.lower (Str.lower s) = Str.lower s.
Proof.
  induction s as [|c s IH]; simpl; [reflexivity|].
  now rewrite char_lower_idempotent, IH.
Qed.

(** X4: the safety verdict does not depend on letter case: two requests whose
    prompts are equal once lower-cased get the same [is_safe],
    [removed_content] and [warnings]; in particular a prompt and its
    lower-cased form do. *)
Theorem validate_ignores_letter_case (r1 r2 : StoryRequest.t) :
  Str.lower (StoryRequest.prompt r1) = Str.lower (StoryRequest.prompt r2) ->
  let same (a b : StoryRequest.t) :=
    ValidatedPrompt.is_safe (PromptValidator.validate a)
    = ValidatedPrompt.is_safe (PromptValidator.validate b)
    /\ ValidatedPrompt.removed_content (PromptValidator.validate a)
       = ValidatedPrompt.removed_content (PromptValidator.validate b)
    /\ ValidatedPrompt.warnings (PromptValidator.validate a)
       = ValidatedPrompt.warnings (PromptValidator.validate b) in
  same r1 r2
  /\ same r1 (StoryRequest.mk (Str.lower (StoryRequest.prompt r1))
                              (StoryRequest.genre r1)
                              (StoryRequest.age_group r1)
                              (StoryRequest.story_length r1)).
Proof.
  intros E same. subst same.
  assert (forall a b,
             Str.lower (StoryRequest.prompt a) = Str.lower (StoryRequest.prompt b) ->
             harmful_occurrences (StoryRequest.prompt a)
             = harmful_occurrences (StoryRequest.prompt b)
             /\ PromptValidator.check_harmful (StoryRequest.prompt a)
                = PromptValidator.check_harmful (StoryRequest.prompt b)) as K.
  { intros a b H. unfold harmful_occurrences, PromptValidator.check_harmful.
    now rewrite H. }
  split.
  - destruct (K r1 r2 E) as [O C].
    rewrite !validate_is_safe, !validate_removed_content, !validate_warnings.
    unfold harmful_terms. now rewrite O, C.
  - destruct (K r1 (StoryRequest.mk (Str.lower (StoryRequest.prompt r1))
                                    (StoryRequest.genre r1)
                                    (StoryRequest.age_group r1)
                                    (StoryRequest.story_length r1))) as [O C].
    { simpl. now rewrite lower_idempotent. }
    rewrite !validate_is_safe, !validate_removed_content, !validate_warnings.
    unfold harmful_terms. now rewrite O, C.
Qed.

(** X4, witness: the same words in two spellings. *)
Lemma validate_ignores_letter_case_witness :
  ValidatedPrompt.warnings (PromptValidator.validate (request "KILL the War" "funny"))
  = ValidatedPrompt.warnings (PromptValidator.validate (request "kill THE war" "mystery")).
Proof.
  apply (proj2 (proj2 (proj1 (validate_ignores_letter_case
                                (request "KILL the War" "funny")
                                (request "kill THE war" "mystery")
                                ltac:(vm_compute; reflexivity))))).
Defined.

(** ** The substitution *)

Lemma sub_without_match (ignorecase : bool) (alts : Re.pattern) (repl s : string) :
  forall before : option ascii,
    Re.findall_from ignorecase alts before 0 s = [] ->
    Re.sub_from ignorecase alts repl before 0 s = s.
Proof.
  induction s as [|c s IH]; intros before; cbn [Re.findall_from Re.sub_from].
  - reflexivity.
  - destruct (Re.match_at ignorecase alts before (String c s)); [discriminate|].
    intros H. f_equal. now apply IH.
Qed.

(** X5: a prompt in which no pattern of the replacement table matches comes
    out of the substitution unchanged. *)
Theorem clean_without_replaceable_word (prompt : string) :
  replaceable_occurrences prompt = [] -> PromptValidator.clean prompt = prompt.
Proof.
  unfold replaceable_occurrences, PromptValidator.clean, PromptValidator.replacements.
  cbn [flat_map fold_left fst snd]. intros H.
  repeat (apply app_eq_nil in H; destruct H as [?H H]).
  unfold Re.sub_ignorecase.
  rewrite (sub_without_match true _ "mysterious" prompt None H0).
  rewrite (sub_without_match true _ "disagree" prompt None H1).
  rewrite (sub_without_match true _ "uncomfortable" prompt None H2).
  rewrite (sub_without_match true _ "upset" prompt None H3).
  exact (sub_without_match true _ "mischievous" prompt None H4).
Qed.

(** X5, witness: a prompt with a harmful word that the table does not cover. *)
Lemma clean_without_replaceable_word_witness :
  PromptValidator.clean "The dragon wants to kill" = "The dragon wants to kill".
Proof.
  apply clean_without_replaceable_word. vm_compute. reflexivity.
Defined.

(** ** Enhancing twice *)

Lemma string_length_app (a b : string) :
  String.length (a ++ b) = String.length a + String.length b.
Proof. induction a as [|c a IH]; simpl; [reflexivity | now rewrite IH]. Qed.

(** X6: enhancing an already enhanced prompt changes nothing, for every
    genre whose lower-cased name is neither "bedtime" nor "funny" (unknown
    genres included): every other opener itself begins like a story. *)
Theorem enhance_prompt_idempotent (prompt genre : string) :
  Str.lower genre <> "bedtime" ->
  Str.lower genre <> "funny" ->
  PromptValidator._enhance_prompt (PromptValidator._enhance_prompt prompt genre) genre
  = PromptValidator._enhance_prompt prompt genre.
Proof.
  intros Hbed Hfun.
  destruct (existsb (Str.startswith (Str.lower prompt)) PromptValidator.story_beginnings)
    eqn:B.
  - unfold PromptValidator._enhance_prompt. rewrite B. cbn [negb]. now rewrite B.
  - assert (PromptValidator._enhance_prompt prompt genre
            = (dict_get PromptValidator.genre_starters (Str.lower genre)
                        "Once upon a time, " ++ Str.lower prompt)%string) as E1.
    { unfold PromptValidator._enhance_prompt. now rewrite B. }
    rewrite E1. unfold PromptValidator._enhance_prompt at 1.
    assert (existsb
              (Str.startswith
                 (Str.lower
                    (dict_get PromptValidator.genre_starters (Str.lower genre)
                              "Once upon a time, " ++ Str.lower prompt)))
              PromptValidator.story_beginnings = true) as S.
    { unfold PromptValidator.genre_starters. cbn [dict_get].
      repeat match goal with
             | |- context [String.eqb ?k (Str.lower genre)] =>
                 destruct (String.eqb_spec k (Str.lower genre)) as [E|_];
                 [ first [ now (symmetry in E; contradiction) | reflexivity ] | ]
             end.
      reflexivity. }
    now rewrite S.
Qed.

(** X6, witness: the genre "Fantasy" and a prompt that gets the opener. *)
Lemma enhance_prompt_idempotent_witness :
  PromptValidator._enhance_prompt
    (PromptValidator._enhance_prompt "A fox finds a friend" "Fantasy") "Fantasy"
  = PromptValidator._enhance_prompt "A fox finds a friend" "Fantasy".
Proof.
  apply enhance_prompt_idempotent; vm_compute; discriminate.
Defined.

(** X7: for the genres "bedtime" and "funny" (in any letter case) the opener
    does not begin like a story, so enhancing an enhanced prompt puts a second
    opener in front of the first. *)
Theorem enhance_prompt_stacks_openers (prompt genre : string) :
  Str.lower genre = "bedtime" \/ Str.lower genre = "funny" ->
  existsb (Str.startswith (Str.lower prompt)) PromptValidator.story_beginnings = false ->
  let starter :=
    dict_get PromptValidator.genre_starters (Str.lower genre) "Once upon a time, " in
  PromptValidator._enhance_prompt prompt genre = (starter ++ Str.lower prompt)%string
  /\ PromptValidator._enhance_prompt (PromptValidator._enhance_prompt prompt genre) genre
     = (starter ++ Str.lower starter ++ Str.lower prompt)%string
  /\ PromptValidator._enhance_prompt (PromptValidator._enhance_prompt prompt genre) genre
     <> PromptValidator._enhance_prompt prompt genre.
Proof.
  intros G B starter.
  assert (PromptValidator._enhance_prompt prompt genre
          = (starter ++ Str.lower prompt)%string) as E1.
  { unfold PromptValidator._enhance_prompt. now rewrite B. }
  assert (PromptValidator._enhance_prompt (starter ++ Str.lower prompt) genre
          = (starter ++ Str.lower starter ++ Str.lower prompt)%string) as E2.
  { unfold PromptValidator._enhance_prompt. fold starter.
    rewrite lower_app, lower_idempotent.
    subst starter. destruct G as [-> | ->]; reflexivity. }
  rewrite E1, E2. repeat split.
  intros H. apply (f_equal String.length) in H.
  rewrite !string_length_app in H.
  assert (0 < String.length (Str.lower starter)) as P
      by (subst starter; destruct G as [-> | ->]; vm_compute; lia).
  lia.
Qed.

(** X7, witness: a bedtime prompt. *)
Lemma enhance_prompt_stacks_openers_witness :
  PromptValidator._enhance_prompt
    (PromptValidator._enhance_prompt "a sleepy owl" "Bedtime") "Bedtime"
  = ("As the stars began to twinkle in the night sky, "
     ++ "as the stars began to twinkle in the night sky, a sleepy owl")%string.
Proof.
  exact (proj1 (proj2 (enhance_prompt_stacks_openers "a sleepy owl" "Bedtime"
                         (or_introl eq_refl) eq_refl))).
Defined.

(** * Further properties of the pipeline *)

(** ** Titles carry no surrounding whitespace *)

Lemma rstrip_idempotent (s : string) : Str.rstrip (Str.rstrip s) = Str.rstrip s.
Proof.
  induction s as [|c s IH]; simpl; [reflexivity|].
  destruct (Str.rstrip s) as [|d t] eqn:R.
  - destruct (Char.isspace c) eqn:Sp; simpl; [reflexivity | now rewrite Sp].
  - cbn [Str.rstrip]. cbn [Str.rstrip] in IH. now rewrite IH.
Qed.

Lemma lstrip_head (s : string) :
  Str.lstrip s = "" \/ exists c t, Str.lstrip s = String c t /\ Char.isspace c = false.
Proof.
  induction s as [|c s IH]; simpl; [now left|].
  destruct (Char.isspace c) eqn:Sp; [assumption|].
  right. now exists c, s.
Qed.

Lemma rstrip_keeps_head (c : ascii) (t : string) :
  Char.isspace c = false -> exists t', Str.rstrip (String c t) = String c t'.
Proof.
  intros Sp. simpl. destruct (Str.rstrip t); [rewrite Sp|]; eauto.
Qed.

Lemma strip_idempotent (s : string) : Str.strip (Str.strip s) = Str.strip s.
Proof.
  unfold Str.strip.
  destruct (lstrip_head s) as [E | (c & t & E & Sp)]; rewrite E.
  - reflexivity.
  - destruct (rstrip_keeps_head c t Sp) as [t' R].
    rewrite R. simpl Str.lstrip. rewrite Sp, <- R.
    apply rstrip_idempotent.
Qed.

(** X8: whatever the text, the extracted title has no leading and no
    trailing whitespace: stripping it again changes nothing. *)
Theorem extract_title_is_stripped (story_text : string) :
  Str.strip (StoryGenerationPipeline._extract_title story_text)
  = StoryGenerationPipeline._extract_title story_text.
Proof.
  unfold StoryGenerationPipeline._extract_title. cbv zeta.
  set (sentence := Str.strip (hd EmptyString (Str.split_on "." story_text))).
  set (fallback := if Nat.ltb 10 (String.length sentence)
                      && Nat.ltb (String.length sentence) 100
                   then sentence else "A Wonderful Story").
  assert (Str.strip fallback = fallback) as F.
  { subst fallback sentence.
    destruct (andb _ _); [apply strip_idempotent | reflexivity]. }
  destruct (filter _ (Str.split_on Str.newline story_text)) as [|x xs];
    simpl map; cbv iota.
  - exact F.
  - destruct (Nat.ltb (String.length (Str.strip x)) 80
              && negb (Str.endswith_char (Str.strip x) "."%char)).
    + apply strip_idempotent.
    + destruct (find _ _); [apply strip_idempotent | exact F].
Qed.

(** ** The first line as the title *)

Lemma split_on_first_piece (sep : ascii) (a b : string) :
  all_chars (fun c => negb (Ascii.eqb c sep)) a = true ->
  Str.split_on sep (a ++ String sep b) = a :: Str.split_on sep b.
Proof.
  induction a as [|c a IH]; simpl; intros H.
  - now rewrite Ascii.eqb_refl.
  - apply andb_true_iff in H. destruct H as [Hc Ha].
    apply negb_true_iff in Hc. rewrite Hc, (IH Ha). reflexivity.
Qed.

Lemma split_on_single_piece (sep : ascii) (a : string) :
  all_chars (fun c => negb (Ascii.eqb c sep)) a = true ->
  Str.split_on sep a = [a].
Proof.
  induction a as [|c a IH]; simpl; intros H.
  - reflexivity.
  - apply andb_true_iff in H. destruct H as [Hc Ha].
    apply negb_true_iff in Hc. rewrite Hc, (IH Ha). reflexivity.
Qed.

(** X9: when the first line of a text is not blank, is shorter than 80
    characters once stripped and does not end with a period, the title is
    that line, stripped, whatever follows it (and also when nothing follows). *)
Theorem extract_title_takes_short_first_line (first rest : string) :
  all_chars (fun c => negb (Ascii.eqb c Str.newline)) first = true ->
  Str.nonempty (Str.strip first) = true ->
  String.length (Str.strip first) < 80 ->
  Str.endswith_char (Str.strip first) "."%char = false ->
  StoryGenerationPipeline._extract_title (first ++ String Str.newline rest)
  = Str.strip first
  /\ StoryGenerationPipeline._extract_title first = Str.strip first.
Proof.
  intros Hnl Hne Hlen Hdot.
  apply Nat.ltb_lt in Hlen.
  split; unfold StoryGenerationPipeline._extract_title; cbv zeta.
  - rewrite (split_on_first_piece Str.newline first rest Hnl).
    cbn [filter]. rewrite Hne. cbn [map]. cbv iota.
    now rewrite Hlen, Hdot.
  - rewrite (split_on_single_piece Str.newline first Hnl).
    cbn [filter]. rewrite Hne. cbn [map]. cbv iota.
    now rewrite Hlen, Hdot.
Qed.

(** X9, witness: an indented heading followed by the story. *)
Lemma extract_title_takes_short_first_line_witness :
  StoryGenerationPipeline._extract_title
    ("  The Brave Fox  " ++ String Str.newline "Once upon a time there was a fox.")
  = "The Brave Fox".
Proof.
  apply (proj1 (extract_title_takes_short_first_line "  The Brave Fox  "
                  "Once upon a time there was a fox."
                  eq_refl eq_refl ltac:(vm_compute; lia) eq_refl)).
Defined.

(** ** What [generate] returns and when it raises *)

Section OrchestratorOutcomes.

Variable World : Type.
Variable generate_story :
  StoryGenerationPipeline.generate_story_args -> World -> option (list string) * World.

Local Abbreviation generate := (StoryGenerationPipeline.generate World generate_story).

(** X10: every story [generate] returns comes with the validation of the
    request, copies the request's genre and age group, counts the
    whitespace-delimited tokens of its own text in [word_count], and has a
    title without surrounding whitespace; when the prompt was safe, the text
    is the first sequence of the collaborator, the title is extracted from it
    and the reading time is computed from the word count. *)
Theorem generate_story_fields (r : StoryRequest.t) (w : World)
        (story : GeneratedStory.t) (v : ValidatedPrompt.t) :
  StoryGenerationPipeline.result (generate r w)
  = StoryGenerationPipeline.Returned (story, v) ->
  v = PromptValidator.validate r
  /\ GeneratedStory.genre story = StoryRequest.genre r
  /\ GeneratedStory.age_group story = StoryRequest.age_group r
  /\ GeneratedStory.word_count story
     = Z.of_nat (List.length (Str.split (GeneratedStory.story_text story)))
  /\ Str.strip (GeneratedStory.title story) = GeneratedStory.title story
  /\ (ValidatedPrompt.is_safe v = true ->
      (exists rest, fst (generate_story (model_args r) w)
                    = Some (GeneratedStory.story_text story :: rest))
      /\ GeneratedStory.title story
         = StoryGenerationPipeline._extract_title (GeneratedStory.story_text story)
      /\ GeneratedStory.estimated_reading_time story
         = StoryGenerationPipeline._calculate_reading_time (GeneratedStory.word_count story)).
Proof.
  intros H.
  destruct (ValidatedPrompt.is_safe (PromptValidator.validate r)) eqn:E.
  - rewrite (generate_safe World generate_story r w E) in H.
    destruct (generate_story (model_args r) w) as [[[|s ss]|] w'];
      simpl in H; try discriminate.
    inversion H; subst; clear H. simpl.
    repeat split; try reflexivity.
    + apply extract_title_is_stripped.
    + now exists ss.
  - rewrite (generate_unsafe World generate_story r w E) in H. simpl in H.
    inversion H; subst; clear H.
    repeat (split; [reflexivity|]).
    intros S. congruence.
Qed.

(** X11: [generate] calls the collaborator at most once, and not at all
    exactly when the prompt is unsafe, in which case the collaborator's state
    is left as it was and a story is returned; it raises exactly when the
    prompt is safe and the collaborator either failed or returned no
    sequence. *)
Theorem generate_calls_and_failures (r : StoryRequest.t) (w : World) :
  let v := PromptValidator.validate r in
  let out := generate r w in
  let answer := fst (generate_story (model_args r) w) in
  List.length (StoryGenerationPipeline.calls out) <= 1
  /\ (StoryGenerationPipeline.calls out = [] <-> ValidatedPrompt.is_safe v = false)
  /\ (ValidatedPrompt.is_safe v = false ->
      StoryGenerationPipeline.world out = w
      /\ exists story, StoryGenerationPipeline.result out
                       = StoryGenerationPipeline.Returned (story, v))
  /\ (StoryGenerationPipeline.result out
      = StoryGenerationPipeline.Raised StoryGenerationPipeline.GenerationFailed
      <-> ValidatedPrompt.is_safe v = true /\ answer = None)
  /\ (StoryGenerationPipeline.result out
      = StoryGenerationPipeline.Raised StoryGenerationPipeline.IndexError
      <-> ValidatedPrompt.is_safe v = true /\ answer = Some []).
Proof.
  intros v out answer. subst v out answer.
  destruct (ValidatedPrompt.is_safe (PromptValidator.validate r)) eqn:E.
  - rewrite (generate_safe World generate_story r w E).
    destruct (generate_story (model_args r) w) as [[[|s ss]|] w']; simpl;
      repeat split; auto; try discriminate; try tauto;
      intros []; discriminate.
  - rewrite (generate_unsafe World generate_story r w E). simpl.
    repeat split; auto; try discriminate; try (intros []; discriminate).
    eauto.
Qed.

End OrchestratorOutcomes.

(** X10, witness: a collaborator that answers with one fixed story. *)
Lemma generate_story_fields_witness :
  GeneratedStory.word_count
    (GeneratedStory.mk "The Fox" "The Fox" "animals" "3-7" 2
                       "1-2 minutes" true)
  = Z.of_nat (List.length (Str.split "The Fox")).
Proof.
  refine (proj1 (proj2 (proj2 (proj2
    (generate_story_fields unit (fun _ w => (Some ["The Fox"], w))
       (StoryRequest.mk "a fox" "animals" "3-7" "short") tt
       (GeneratedStory.mk "The Fox" "The Fox" "animals" "3-7" 2 "1-2 minutes" true)
       (PromptValidator.validate (StoryRequest.mk "a fox" "animals" "3-7" "short"))
       _))))).
  vm_compute. reflexivity.
Defined.

(** ** The two reading-time formulas *)

Lemma uint_string_digits (d : Decimal.uint) :
  all_chars isdigit (NilEmpty.string_of_uint d) = true.
Proof. induction d; simpl; auto. Qed.

Lemma of_int_digits (n : Z) : (0 <= n)%Z -> all_chars isdigit (Str.of_int n) = true.
Proof.
  intros H. destruct n as [|p|p]; [reflexivity | | lia].
  unfold Str.of_int. simpl.
  pose proof (uint_string_digits (Pos.to_uint p)) as D.
  unfold NilZero.string_of_uint.
  destruct (Pos.to_uint p); assumption || reflexivity.
Qed.

Lemma of_int_injective (a b : Z) : Str.of_int a = Str.of_int b -> a = b.
Proof.
  unfold Str.of_int. intros H.
  assert (forall n, Z.to_int n <> Decimal.Pos Decimal.Nil
                    /\ Z.to_int n <> Decimal.Neg Decimal.Nil) as N.
  { intros [|p|p]; simpl; split; try discriminate;
      intros E; inversion E as [E'];
      exact (DecimalPos.Unsigned.to_uint_nonnil p E'). }
  apply DecimalZ.to_int_inj.
  assert (Some (Z.to_int a) = Some (Z.to_int b)) as S.
  { rewrite <- (NilZero.isi (Z.to_int a)) by apply N.
    rewrite <- (NilZero.isi (Z.to_int b)) by apply N.
    now rewrite H. }
  now inversion S.
Qed.

Lemma digits_then_separator (sep : ascii) (a a' x x' : string) :
  isdigit sep = false ->
  all_chars isdigit a = true ->
  all_chars isdigit a' = true ->
  (a ++ String sep x)%string = (a' ++ String sep x')%string ->
  a = a' /\ x = x'.
Proof.
  intros Hsep. revert a'.
  induction a as [|c a IH]; intros [|c' a'] Ha Ha' E; simpl in *.
  - inversion E. auto.
  - inversion E; subst. apply andb_true_iff in Ha'. destruct Ha' as [D _]. congruence.
  - inversion E; subst. apply andb_true_iff in Ha. destruct Ha as [D _]. congruence.
  - inversion E; subst.
    apply andb_true_iff in Ha, Ha'. destruct Ha as [_ Ha], Ha' as [_ Ha'].
    destruct (IH a' Ha Ha' H1) as [-> ->]. auto.
Qed.

Lemma reading_time_formulas_disagree (words words' : Z) :
  (let minutes := Z.max 1 (words / 200) in
   Str.of_int minutes ++ "-" ++ Str.of_int (minutes + 2) ++ " minutes")%string
  <> StoryGenerationPipeline._calculate_reading_time words'.
Proof.
  unfold StoryGenerationPipeline._calculate_reading_time. cbv zeta.
  set (k := Z.max 1 (words / 200)). set (m := Z.max 1 (words' / 150)).
  assert (1 <= k)%Z by (subst k; lia). assert (1 <= m)%Z by (subst m; lia).
  intros E.
  apply (digits_then_separator "-"%char) in E;
    [ | reflexivity | apply of_int_digits; lia | apply of_int_digits; lia ].
  destruct E as [Ekm E].
  apply of_int_injective in Ekm.
  apply (digits_then_separator " "%char) in E;
    [ | reflexivity | apply of_int_digits; lia | apply of_int_digits; lia ].
  destruct E as [E _]. apply of_int_injective in E. lia.
Qed.

(** X12: the reading time stored in a story that [generate] returned never
    equals what the story's own [get_reading_time] method computes from its
    word count, on the model path and on the safe-default path alike. *)
Theorem stored_reading_time_never_matches_method
        (World : Type)
        (generate_story :
           StoryGenerationPipeline.generate_story_args -> World -> option (list string) * World)
        (r : StoryRequest.t) (w : World)
        (story : GeneratedStory.t) (v : ValidatedPrompt.t) :
  StoryGenerationPipeline.result (StoryGenerationPipeline.generate World generate_story r w)
  = StoryGenerationPipeline.Returned (story, v) ->
  String.eqb (GeneratedStory.get_reading_time story)
             (GeneratedStory.estimated_reading_time story) = false.
Proof.
  intros H. apply String.eqb_neq.
  destruct (ValidatedPrompt.is_safe (PromptValidator.validate r)) eqn:E.
  - destruct (generate_story_fields World generate_story r w story v H)
      as (-> & _ & _ & _ & _ & K).
    destruct (K E) as (_ & _ & ->).
    apply reading_time_formulas_disagree.
  - rewrite (generate_unsafe World generate_story r w E) in H. simpl in H.
    inversion H; subst; clear H.
    change (GeneratedStory.estimated_reading_time
              (StoryGenerationPipeline._create_safe_default_story r
                 (PromptValidator.validate r)))
      with (StoryGenerationPipeline._calculate_reading_time 300).
    apply reading_time_formulas_disagree.
Qed.

(** X12, witness: the safe-default story of an unsafe prompt. *)
Lemma stored_reading_time_never_matches_method_witness :
  String.eqb
    (GeneratedStory.get_reading_time
       (StoryGenerationPipeline._create_safe_default_story
          (request "kill kill kill kill" "fantasy")
          (PromptValidator.validate (request "kill kill kill kill" "fantasy"))))
    "2-3 minutes"
  = false.
Proof.
  apply (stored_reading_time_never_matches_method unit (fun _ w => (None, w))
           (request "kill kill kill kill" "fantasy") tt
           (StoryGenerationPipeline._create_safe_default_story
              (request "kill kill kill kill" "fantasy")
              (PromptValidator.validate (request "kill kill kill kill" "fantasy")))
           (PromptValidator.validate (request "kill kill kill kill" "fantasy"))).
  vm_compute. reflexivity.
Defined.

(** * Properties of the terminal front end *)

(** ** Numbered menus *)

Lemma int_of_int (n : Z) : StoryTUI.int (Str.of_int n) = Some n.
Proof.
  unfold StoryTUI.int, Str.of_int.
  rewrite NilZero.isi.
  - simpl. now rewrite DecimalZ.of_to.
  - destruct n as [|p|p]; simpl; try discriminate.
    intros E; inversion E as [E']. exact (DecimalPos.Unsigned.to_uint_nonnil p E').
  - destruct n as [|p|p]; simpl; try discriminate.
    intros E; inversion E as [E']. exact (DecimalPos.Unsigned.to_uint_nonnil p E').
Qed.

Lemma pick_numbered (l : list string) (i : nat) :
  1 <= i <= List.length l ->
  StoryTUI.pick l (Str.of_int (Z.of_nat i)) = StoryTUI.Returned (nth (i - 1) l "")
  /\ In (nth (i - 1) l "") l.
Proof.
  intros H. unfold StoryTUI.pick, StoryTUI.getitem. rewrite int_of_int. cbv zeta.
  replace (Z.leb 0 (Z.of_nat i - 1)) with true by (symmetry; apply Z.leb_le; lia).
  replace (Z.ltb (Z.of_nat i - 1) (Z.of_nat (List.length l))) with true
    by (symmetry; apply Z.ltb_lt; lia).
  cbn [andb].
  replace (Z.to_nat (Z.of_nat i - 1)) with (i - 1) by lia.
  rewrite (nth_error_nth' l "") by lia.
  split; [reflexivity | apply nth_In; lia].
Qed.


Lemma nth_at_last (l : list string) (d : string) :
  nth (List.length l - 1) l d = last l d.
Proof.
  induction l as [|x [|y l] IH]; try reflexivity.
  change (last (x :: y :: l) d) with (last (y :: l) d). rewrite <- IH.
  simpl. now rewrite Nat.sub_0_r.
Qed.

(** X13: in a numbered menu the answer [str(i)] with [1 <= i <= len(l)]
    selects the i-th item and nothing is raised; a number above the length
    raises [IndexError]; and the number 0, which the menu does not offer,
    would select the last item, since the index -1 counts from the end. *)
Theorem menu_answer_selects_item (l : list string) (i : nat) :
  (1 <= i <= List.length l ->
   StoryTUI.pick l (Str.of_int (Z.of_nat i)) = StoryTUI.Returned (nth (i - 1) l ""))
  /\ (List.length l < i ->
      StoryTUI.pick l (Str.of_int (Z.of_nat i)) = StoryTUI.Raised StoryTUI.IndexError)
  /\ (l <> [] ->
      StoryTUI.pick l (Str.of_int 0) = StoryTUI.Returned (last l ""))
  /\ (1 <= i <= List.length l -> In (Str.of_int (Z.of_nat i)) (StoryTUI.choices l)).
Proof.
  repeat split.
  - intros H. apply (pick_numbered l i H).
  - intros H. unfold StoryTUI.pick, StoryTUI.getitem. rewrite int_of_int. cbv zeta.
    replace (Z.ltb (Z.of_nat i - 1) (Z.of_nat (List.length l))) with false
      by (symmetry; apply Z.ltb_ge; lia).
    replace (Z.ltb (Z.of_nat i - 1) 0) with false
      by (symmetry; apply Z.ltb_ge; lia).
    rewrite !andb_false_r. reflexivity.
  - intros H. unfold StoryTUI.pick, StoryTUI.getitem. rewrite int_of_int. cbv zeta.
    assert (0 < List.length l) as L by (destruct l; [congruence | simpl; lia]).
    change (Z.leb 0 (0 - 1)) with false. cbn [andb].
    replace (Z.leb (- Z.of_nat (List.length l)) (0 - 1)) with true
      by (symmetry; apply Z.leb_le; lia).
    change (Z.ltb (0 - 1) 0) with true. cbn [andb].
    replace (Z.to_nat (Z.of_nat (List.length l) + (0 - 1))) with (List.length l - 1)
      by lia.
    rewrite (nth_error_nth' l "") by lia.
    f_equal. apply nth_at_last.
  - intros H. unfold StoryTUI.choices.
    apply in_map_iff. exists i. split; [reflexivity | apply in_seq; lia].
Qed.

(** X13, witness: the third genre of the menu. *)
Lemma menu_answer_selects_item_witness :
  StoryTUI.pick StoryTUI.GENRES "3" = StoryTUI.Returned "friendship".
Proof.
  apply (proj1 (menu_answer_selects_item StoryTUI.GENRES 3)). simpl. lia.
Defined.

(** ** The request the front end builds *)




(** ** The front end and the pipeline together *)

Section FrontEnd.

Variable World : Type.
Variable generate_story :
  StoryGenerationPipeline.generate_story_args -> World -> option (list string) * World.





End FrontEnd.


(** ** When the "title:" prefix is removed *)

(** X16: the "title:" prefix of the first line is removed only past the
    first-line rule: when the first line is not blank, starts with "title:"
    in any letter case, and is 80 characters or longer or ends with a period,
    the title is what follows the prefix on that line, stripped. *)
Theorem extract_title_strips_prefix_of_long_or_dotted_line (first rest : string) :
  all_chars (fun c => negb (Ascii.eqb c Str.newline)) first = true ->
  Str.nonempty (Str.strip first) = true ->
  80 <= String.length (Str.strip first)
  \/ Str.endswith_char (Str.strip first) "."%char = true ->
  Str.startswith (Str.lower (Str.strip first)) "title:" = true ->
  StoryGenerationPipeline._extract_title (first ++ String Str.newline rest)
  = Str.strip (Str.drop 6 (Str.strip first)).
Proof.
  intros Hnl Hne Hrule Htitle.
  assert (Nat.ltb (String.length (Str.strip first)) 80
          && negb (Str.endswith_char (Str.strip first) "."%char) = false) as R.
  { destruct Hrule as [L|D].
    - apply Nat.ltb_ge in L. now rewrite L.
    - rewrite D. apply andb_false_r. }
  unfold StoryGenerationPipeline._extract_title; cbv zeta.
  rewrite (split_on_first_piece Str.newline first rest Hnl).
  cbn [filter]. rewrite Hne. cbn [map]. cbv iota.
  rewrite R. cbn [firstn find]. now rewrite Htitle.
Qed.

(** X16, witness: a heading in capitals with a period at its end. *)
Lemma extract_title_strips_prefix_witness :
  StoryGenerationPipeline._extract_title
    ("TITLE:  The Brave Fox." ++ String Str.newline "Once upon a time...")
  = "The Brave Fox.".
Proof.
  apply (extract_title_strips_prefix_of_long_or_dotted_line
           "TITLE:  The Brave Fox." "Once upon a time..."
           eq_refl eq_refl (or_intror eq_refl) eq_refl).
Defined.
